(** * cloud.asyncbotocore: connector configuration and the asynchronous client

    A shallow embedding of [cloud/asyncbotocore/config.py] and
    [cloud/asyncbotocore/client.py].

    - Python values are a small tagged union; [isinstance] follows the
      class hierarchy of the builtins ([bool] is a subclass of [int]).
    - A [dict] is an insertion-ordered association list: the validator
      walks [connector_args.items()] in that order and raises at the first
      offending entry, so the order is observable.
    - Dictionaries are objects: [AsyncConfig.__init__] copies the caller's
      mapping and writes into the copy.  The object store is a list of
      dictionaries indexed by reference.
    - Exceptions are the left summand of [result]. *)

From Stdlib Require Import ZArith String Ascii List Bool Lia DecimalString.
From stdpp Require Import list strings.
Import ListNotations.

Open Scope string_scope.
Open Scope list_scope.

(** ** Python values, exceptions and dictionaries *)

Module Py.

(** The values that reach the modelled code.  A float is kept by its
    [repr]: nothing here computes with it.  Any other object carries the
    qualified name of its class and its [str()]. *)
Inductive value : Type :=
| VNone
| VBool (b : bool)
| VInt (n : Z)
| VFloat (repr : string)
| VStr (s : string)
| VObject (cls : string) (repr : string).

Definition SSLContext : string := "ssl.SSLContext".

(** [isinstance(v, bool)] *)
Definition isinstance_bool (v : value) : bool :=
  match v with VBool _ => true | _ => false end.

(** [isinstance(v, int)]: [bool] is a subclass of [int]. *)
Definition isinstance_int (v : value) : bool :=
  match v with VInt _ | VBool _ => true | _ => false end.

(** [isinstance(v, float)] *)
Definition isinstance_float (v : value) : bool :=
  match v with VFloat _ => true | _ => false end.

(** [isinstance(v, ssl.SSLContext)] *)
Definition isinstance_SSLContext (v : value) : bool :=
  match v with VObject c _ => String.eqb c SSLContext | _ => false end.

(** [str(v)] *)
Definition str (v : value) : string :=
  match v with
  | VNone => "None"
  | VBool true => "True"
  | VBool false => "False"
  | VInt n => NilZero.string_of_int (Z.to_int n)
  | VFloat r => r
  | VStr s => s
  | VObject _ r => r
  end.

(** [c.lower()] on one character: only A-Z have an ASCII lower case. *)
Definition lower_ascii (c : ascii) : ascii :=
  let n := nat_of_ascii c in
  if (65 <=? n)%nat && (n <=? 90)%nat then ascii_of_nat (n + 32) else c.

(** [s.lower()] *)
Fixpoint lower (s : string) : string :=
  match s with
  | EmptyString => EmptyString
  | String c s' => String (lower_ascii c) (lower s')
  end.

(** [x in [a, b, ...]] for strings. *)
Definition in_list (x : string) (l : list string) : bool :=
  existsb (String.eqb x) l.

(** Insertion-ordered mapping with string keys. *)
Abbreviation dict V := (list (string * V)%type) (only parsing).

(** [d.get(k)] *)
Fixpoint dict_get {V : Type} (k : string) (d : dict V) : option V :=
  match d with
  | [] => None
  | (k', v) :: d' => if String.eqb k k' then Some v else dict_get k d'
  end.

(** [k in d] *)
Definition dict_contains {V : Type} (k : string) (d : dict V) : bool :=
  match dict_get k d with Some _ => true | None => false end.

(** [d[k] = v]: an existing key keeps its place, a new key goes last. *)
Fixpoint dict_set {V : Type} (k : string) (v : V) (d : dict V) : dict V :=
  match d with
  | [] => [(k, v)]
  | (k', v') :: d' =>
      if String.eqb k k' then (k, v) :: d' else (k', v') :: dict_set k v d'
  end.

(** [d.update(other)] *)
Definition dict_update {V : Type} (d other : dict V) : dict V :=
  fold_left (fun acc kv => dict_set (fst kv) (snd kv) acc) other d.

(** [bool(d)]: a mapping is true when it is not empty. *)
Definition dict_truthy {V : Type} (d : dict V) : bool :=
  match d with [] => false | _ :: _ => true end.

(** The keys of a Python dict are pairwise distinct. *)
Definition dict_wf {V : Type} (d : dict V) : Prop :=
  List.NoDup (map fst d).

(** The exceptions of botocore and of the builtins that the modelled code
    raises or lets through.  [ClientError] is what the design documents
    call a service error; [TransportFault] stands for whatever the
    endpoint raises when no response arrives. *)
Inductive exn : Type :=
| TypeError (msg : string)
| KeyError (key : string)
| AttributeError (name : string)
| ParamValidationError (report : string)
| OperationNotFoundError (operation_name : string)
| OperationNotPageableError (operation_name : string)
| ClientError (error_response : dict value) (operation_name : string)
| TransportFault (msg : string).

(** A computation that returns or raises. *)
Definition result (E A : Type) : Type := (E + A)%type.
Definition ret {E A : Type} (a : A) : result E A := inr a.
Definition raise {E A : Type} (e : E) : result E A := inl e.

End Py.

Import Py.

(** ** config.py *)

Module Config.

(** The object store: a reference is an index into the list of live
    dictionaries; allocation appends. *)
Abbreviation ref := nat (only parsing).
Abbreviation heap := (list (dict value)) (only parsing).

Definition alloc (h : heap) (d : dict value) : heap * ref :=
  (h ++ [d], length h).

(** Reading through a reference.  References handed to the code are
    live; a dangling one reads as the empty mapping. *)
Definition load (h : heap) (r : ref) : dict value :=
  default [] (h !! r).

Definition store (h : heap) (r : ref) (d : dict value) : heap :=
  <[r := d]> h.

(** One arm of the loop body of [_validate_connector_args]. *)
Definition check_connector_arg (k : string) (v : value) : result exn unit :=
  if in_list k ["use_dns_cache"; "verify_ssl"] then
    if negb (isinstance_bool v)
    then raise (ParamValidationError (k +:+ " value must be a boolean"))
    else ret tt
  else if in_list k ["keepalive_timeout"] then
    if negb (isinstance_float v) && negb (isinstance_int v)
    then raise (ParamValidationError (k +:+ " value must be a float/int"))
    else ret tt
  else if String.eqb k "force_close" then
    if negb (isinstance_bool v)
    then raise (ParamValidationError (k +:+ " value must be a boolean"))
    else ret tt
  else if String.eqb k "limit" then
    if negb (isinstance_int v)
    then raise (ParamValidationError (k +:+ " value must be an int"))
    else ret tt
  else if String.eqb k "ssl_context" then
    if negb (isinstance_SSLContext v)
    then raise (ParamValidationError (k +:+ " must be an SSLContext instance"))
    else ret tt
  else raise (ParamValidationError ("invalid connector_arg:" +:+ k)).

(** [for k, v in connector_args.items(): ...] *)
Fixpoint validate_items (items : dict value) : result exn unit :=
  match items with
  | [] => ret tt
  | (k, v) :: rest =>
      match check_connector_arg k v with
      | inl e => raise e
      | inr _ => validate_items rest
      end
  end.

(** [AsyncConfig._validate_connector_args]; [None] is accepted as is. *)
Definition _validate_connector_args (connector_args : option (dict value))
  : result exn unit :=
  match connector_args with
  | None => ret tt
  | Some d => validate_items d
  end.

(** An [AsyncConfig] instance: the options the base class recorded as
    given by the caller, and the reference held in [self.connector_args]. *)
Record AsyncConfig : Type := mkAsyncConfig {
  _user_provided_options : dict value;
  connector_args : ref
}.

Section WithBaseClass.

(** [botocore.client.Config] is the base class and lives outside this
    repository.  Which keyword options it takes is a parameter. *)
Variable option_accepted : string -> value -> bool.

(** The call to [super().__init__] with the keywords: the base
    constructor raises at the first keyword it does not take and otherwise
    records the keywords as [_user_provided_options]. *)
Definition Config_init (kwargs : dict value) : result exn (dict value) :=
  match find (fun kv => negb (option_accepted (fst kv) (snd kv))) kwargs with
  | Some (k, _) =>
      raise (TypeError ("Got unexpected keyword argument '" +:+ k +:+ "'"))
  | None => ret kwargs
  end.

(** [self.connector_args = copy.copy(connector_args)] followed by
    [if not self.connector_args: self.connector_args = dict()].
    [copy.copy(None)] is [None]; a shallow copy of a mapping is a new
    object with the same items. *)
Definition copy_or_new (h : heap) (arg : option ref) : heap * ref :=
  match arg with
  | None => alloc h []
  | Some r =>
      let (h1, r1) := alloc h (load h r) in
      if negb (dict_truthy (load h1 r1)) then alloc h1 [] else (h1, r1)
  end.

(** [AsyncConfig.__init__]: [arg] is [connector_args], [kwargs] the
    remaining keywords. *)
Definition AsyncConfig_init (h : heap) (arg : option ref)
    (kwargs : dict value) : heap * result exn AsyncConfig :=
  match Config_init kwargs with
  | inl e => (h, raise e)
  | inr opts =>
      match _validate_connector_args (option_map (load h) arg) with
      | inl e => (h, raise e)
      | inr _ =>
          let (h1, r) := copy_or_new h arg in
          let h2 :=
            if negb (dict_contains "keepalive_timeout" (load h1 r))
            then store h1 r (dict_set "keepalive_timeout" (VInt 12) (load h1 r))
            else h1 in
          (h2, ret (mkAsyncConfig opts r))
      end
  end.

(** [AsyncConfig.merge(self, other_config)] *)
Definition merge (h : heap) (self other_config : AsyncConfig)
  : heap * result exn AsyncConfig :=
  let config_options :=
    dict_update (_user_provided_options self)
                (_user_provided_options other_config) in
  AsyncConfig_init h (Some (connector_args self)) config_options.

End WithBaseClass.

End Config.


(** ** client.py *)

Module Client.

(** The attributes of the explicit client config that [_get_client_args]
    reads. *)
Record ClientConfig : Type := mkClientConfig {
  parameter_validation : bool;
  user_agent : option string;
  user_agent_extra : option string;
  connect_timeout : value;
  read_timeout : value
}.

(** What [endpoint_bridge.resolve] returns, as far as it is used for the
    config keywords. *)
Record EndpointConfig : Type := mkEndpointConfig {
  ec_region_name : value;
  ec_signature_version : value
}.

(** [botocore.serialize.create_serializer(protocol, parameter_validation)]
    is kept as the pair of its arguments. *)
Record Serializer : Type := mkSerializer {
  protocol : string;
  validates : bool
}.

(** Lines 31-37 of [_get_client_args]: the flag handed to the serializer.
    A config object is true whenever it is not [None]; a scoped config is
    true when it is a mapping with at least one entry. *)
Definition get_parameter_validation (client_config : option ClientConfig)
    (scoped_config : option (dict value)) : bool :=
  let explicit_off :=
    match client_config with
    | Some c => negb (parameter_validation c)
    | None => false
    end in
  if explicit_off then false
  else
    match scoped_config with
    | Some sc =>
        if dict_truthy sc then
          let raw_value :=
            str (default (VStr "") (dict_get "parameter_validation" sc)) in
          if String.eqb (lower raw_value) "false" then false else true
        else true
    | None => true
    end.

(** Lines 47-52 of [_get_client_args]: [default_user_agent] is
    [self._user_agent]. *)
Definition get_user_agent (default_user_agent : string)
    (client_config : option ClientConfig) : string :=
  match client_config with
  | None => default_user_agent
  | Some c =>
      let ua :=
        match user_agent c with
        | Some u => u
        | None => default_user_agent
        end in
      match user_agent_extra c with
      | Some extra => ua +:+ " " +:+ extra
      | None => ua
      end
  end.

(** The part of the result of [_get_client_args] that this module
    computes itself: the serializer and the keywords for the new config
    (lines 63-70), before the s3 keywords are injected.  Signer, parser,
    emitter copy and endpoint come from botocore and the endpoint module. *)
Record ClientArgs : Type := mkClientArgs {
  serializer : Serializer;
  config_kwargs : dict value
}.

Definition _get_client_args (service_protocol default_user_agent : string)
    (endpoint_config : EndpointConfig) (scoped_config : option (dict value))
    (client_config : option ClientConfig) : ClientArgs :=
  let validation := get_parameter_validation client_config scoped_config in
  let ua := get_user_agent default_user_agent client_config in
  let kwargs :=
    [("region_name", ec_region_name endpoint_config);
     ("signature_version", ec_signature_version endpoint_config);
     ("user_agent", VStr ua)] in
  let kwargs :=
    match client_config with
    | Some c =>
        dict_update kwargs
          [("connect_timeout", connect_timeout c);
           ("read_timeout", read_timeout c)]
    | None => kwargs
    end in
  mkClientArgs (mkSerializer service_protocol validation) kwargs.

(** *** The bound client *)

Record OperationModel : Type := mkOperationModel {
  om_name : string;
  has_streaming_input : bool
}.

Record RequestContext : Type := mkRequestContext {
  ctx_client_region : string;
  ctx_client_config : Config.AsyncConfig;
  ctx_has_streaming_input : bool
}.

Record HttpResponse : Type := mkHttpResponse {
  status_code : Z
}.

(** The keyword arguments of the two [emit] calls. *)
Inductive hook_kwargs : Type :=
| BeforeCallArgs (model : OperationModel) (params : dict value)
    (context : RequestContext)
| AfterCallArgs (http_response : HttpResponse) (parsed : dict value)
    (model : OperationModel) (context : RequestContext).

(** What a call does that the outside can observe, in order:
    [self.meta.events.emit(name, ...)] and the awaited
    [self._endpoint.make_request(operation_model, request_dict)]. *)
Inductive event : Type :=
| Emit (name : string) (kwargs : hook_kwargs)
| MakeRequest (model : OperationModel) (request_dict : dict value).

(** An instance of the generated client class.  [methods] are the names
    of the generated operation methods, [page_config] is
    [self._cache.get('page_config')]. *)
Record BaseClient : Type := mkBaseClient {
  endpoint_prefix : string;
  region_name : string;
  config : Config.AsyncConfig;
  _PY_TO_OP_NAME : dict string;
  methods : list string;
  page_config : option (dict value)
}.

(** Calls log what they do and may raise. *)
Definition M (A : Type) : Type := list event -> list event * result exn A.

Definition mret {A : Type} (a : A) : M A := fun t => (t, ret a).

Definition mraise {A : Type} (e : exn) : M A := fun t => (t, raise e).

Definition mbind {A B : Type} (m : M A) (f : A -> M B) : M B :=
  fun t =>
    match m t with
    | (t', inl e) => (t', raise e)
    | (t', inr a) => f a t'
    end.

Definition lift {A : Type} (r : result exn A) : M A := fun t => (t, r).

Definition log (e : event) : M unit := fun t => (t ++ [e], ret tt).

Notation "x <- m ;; k" := (mbind m (fun x => k))
  (at level 100, m at level 99, right associativity).
Notation "m ;;; k" := (mbind m (fun _ => k))
  (at level 100, right associativity).

Definition before_call_name (self : BaseClient) (operation_name : string)
  : string :=
  "before-call." +:+ endpoint_prefix self +:+ "." +:+ operation_name.

Definition after_call_name (self : BaseClient) (operation_name : string)
  : string :=
  "after-call." +:+ endpoint_prefix self +:+ "." +:+ operation_name.

Section WithCollaborators.

(** [self._service_model.operation_model(name)] *)
Variable operation_model : string -> result exn OperationModel.

(** [self._convert_to_request_dict(api_params, operation_model, context)] *)
Variable _convert_to_request_dict :
  dict value -> OperationModel -> RequestContext -> result exn (dict value).

(** The handlers registered for an event receive the request record by
    reference and may rewrite it in place; this is what they leave in it.
    Handlers are taken to return normally. *)
Variable before_call_handlers : string -> dict value -> dict value.

(** [self._endpoint.make_request(operation_model, request_dict)]: an
    (http, parsed) pair, or the fault the transport raised. *)
Variable make_request :
  OperationModel -> dict value -> result exn (HttpResponse * dict value).

(** [AsyncBaseClient._make_api_call] *)
Definition _make_api_call (self : BaseClient) (operation_name : string)
    (api_params : dict value) : M (dict value) :=
  om <- lift (operation_model operation_name) ;;
  let request_context :=
    mkRequestContext (region_name self) (config self)
                     (has_streaming_input om) in
  request_dict <-
    lift (_convert_to_request_dict api_params om request_context) ;;
  log (Emit (before_call_name self operation_name)
            (BeforeCallArgs om request_dict request_context)) ;;;
  let request_dict :=
    before_call_handlers (before_call_name self operation_name) request_dict in
  log (MakeRequest om request_dict) ;;;
  response <- lift (make_request om request_dict) ;;
  let http := fst response in
  let parsed_response := snd response in
  log (Emit (after_call_name self operation_name)
            (AfterCallArgs http parsed_response om request_context)) ;;;
  if (status_code http >=? 300)%Z
  then mraise (ClientError parsed_response operation_name)
  else mret parsed_response.

End WithCollaborators.

(** *** Paginators *)

(** The class installed in [Paginator.PAGE_ITERATOR_CLS], an attribute of
    the class and so shared by the whole process. *)
Inductive page_iterator_cls : Type :=
| PageIterator
| AsyncPageIterator.

(** [Paginator(method, pagination_config)]: the bound method is kept by
    its name. *)
Record Paginator : Type := mkPaginator {
  pg_method : string;
  pg_pagination_cfg : value
}.

(** [getattr(self, name)] on the generated methods. *)
Definition getattr_method (self : BaseClient) (name : string)
  : result exn string :=
  if in_list name (methods self) then ret name
  else raise (AttributeError name).

Section WithCanPaginate.

(** [self.can_paginate(name)] is inherited from botocore's [BaseClient].
    It may fill [self._cache['page_config']] on the way, and it may
    raise. *)
Variable can_paginate :
  BaseClient -> string -> BaseClient * result exn bool.

(** [AsyncBaseClient.get_paginator]: the state is the client and the
    process-wide [Paginator.PAGE_ITERATOR_CLS]. *)
Definition get_paginator (self : BaseClient) (cls : page_iterator_cls)
    (operation_name : string)
  : BaseClient * page_iterator_cls * result exn Paginator :=
  match can_paginate self operation_name with
  | (self1, inl e) => (self1, cls, raise e)
  | (self1, inr false) =>
      (self1, cls, raise (OperationNotPageableError operation_name))
  | (self1, inr true) =>
      match dict_get operation_name (_PY_TO_OP_NAME self1) with
      | None => (self1, cls, raise (KeyError operation_name))
      | Some actual_operation_name =>
          let cls1 := AsyncPageIterator in
          match getattr_method self1 operation_name with
          | inl e => (self1, cls1, raise e)
          | inr method =>
              match page_config self1 with
              | None => (self1, cls1, raise (KeyError "page_config"))
              | Some pc =>
                  match dict_get actual_operation_name pc with
                  | None =>
                      (self1, cls1, raise (KeyError actual_operation_name))
                  | Some cfg => (self1, cls1, ret (mkPaginator method cfg))
                  end
              end
          end
      end
  end.

End WithCanPaginate.

End Client.

(** ** The design documents' vocabulary for connector options

    These predicates follow the wording of the design documents, not the
    code: the recognized option names and the type each one is declared
    to have.  The theorems below compare them with the validator. *)

Module ConnectorSpec.

Definition recognized_keys : list string :=
  ["use_dns_cache"; "verify_ssl"; "force_close"; "keepalive_timeout";
   "limit"; "ssl_context"].

Definition recognized (k : string) : bool := in_list k recognized_keys.

(** Boolean flags, one numeric duration (float or integer), one integer
    limit, one TLS context.  An integer is whatever [isinstance(v, int)]
    holds of. *)
Definition well_typed (k : string) (v : value) : bool :=
  if in_list k ["use_dns_cache"; "verify_ssl"; "force_close"]
  then isinstance_bool v
  else if String.eqb k "keepalive_timeout"
  then isinstance_float v || isinstance_int v
  else if String.eqb k "limit" then isinstance_int v
  else if String.eqb k "ssl_context" then isinstance_SSLContext v
  else true.

(** An entry the validator has to reject. *)
Definition offending (k : string) (v : value) : bool :=
  negb (recognized k) || negb (well_typed k v).

Definition offending_entry (kv : string * value) : bool :=
  offending (fst kv) (snd kv).

(** A message names a key when the key occurs in it. *)
Definition names (msg key : string) : Prop :=
  exists pre post, msg = pre +:+ key +:+ post.

(** The report of a rejected entry starts with the key, or is the
    unknown-option report followed by the key. *)
Definition report_shape (msg k : string) : Prop :=
  (exists suffix, msg = k +:+ suffix) \/ msg = "invalid connector_arg:" +:+ k.

(** What the caller passed, read through its reference. *)
Definition given (h : Config.heap) (arg : option Config.ref) : dict value :=
  match arg with
  | None => []
  | Some r => Config.load h r
  end.

(** The options a config ends up with for the given ones. *)
Definition with_keepalive_default (d : dict value) : dict value :=
  if dict_contains "keepalive_timeout" d then d
  else dict_set "keepalive_timeout" (VInt 12) d.

(** The declared type read strictly: an integer that is not a boolean. *)
Definition isinstance_int_proper (v : value) : bool :=
  match v with VInt _ => true | _ => false end.

Definition strictly_typed (k : string) (v : value) : bool :=
  if in_list k ["use_dns_cache"; "verify_ssl"; "force_close"]
  then isinstance_bool v
  else if String.eqb k "keepalive_timeout"
  then isinstance_float v || isinstance_int_proper v
  else if String.eqb k "limit" then isinstance_int_proper v
  else if String.eqb k "ssl_context" then isinstance_SSLContext v
  else true.

(** A boolean bound to one of the two integer-typed options. *)
Definition bool_for_int_option (k : string) (v : value) : Prop :=
  (k = "limit" \/ k = "keepalive_timeout") /\ exists b, v = VBool b.

(** A config as the constructor leaves it in the store [h]: its connector
    options are live, passed the validator and have a keep-alive value;
    its recorded options are ones the base class takes. *)
Definition built (option_accepted : string -> value -> bool)
    (h : Config.heap) (c : Config.AsyncConfig) : Prop :=
  exists d,
    h !! Config.connector_args c = Some d
    /\ Config.validate_items d = ret tt
    /\ dict_contains "keepalive_timeout" d = true
    /\ (forall k v, List.In (k, v) (Config._user_provided_options c) ->
          option_accepted k v = true).

(** The reading of a merge in which the second config's connector
    options, when it was given any, replace the first's. *)
Definition merge_takes_second_connector_args
    (option_accepted : string -> value -> bool) : Prop :=
  forall h argA kwA h1 A rB kwB h2 B h3 C,
    Config.AsyncConfig_init option_accepted h argA kwA = (h1, ret A) ->
    Config.AsyncConfig_init option_accepted h1 (Some rB) kwB = (h2, ret B) ->
    Config.merge option_accepted h2 A B = (h3, ret C) ->
    Config.load h3 (Config.connector_args C)
    = Config.load h2 (Config.connector_args B).

End ConnectorSpec.

(** ** The design documents' vocabulary for calls and client arguments *)

Module ClientSpec.

Import Client.

(** The explicit config switches validation off. *)
Definition explicitly_disabled (client_config : option ClientConfig) : bool :=
  match client_config with
  | Some c => negb (parameter_validation c)
  | None => false
  end.

(** Two characters that are equal up to the case of an ASCII letter. *)
Definition same_letter (a b : ascii) : bool :=
  Ascii.eqb (lower_ascii a) (lower_ascii b).

(** Two strings that are equal up to the case of their ASCII letters. *)
Fixpoint equal_ignoring_case (s t : string) : bool :=
  match s, t with
  | EmptyString, EmptyString => true
  | String a s', String b t' => same_letter a b && equal_ignoring_case s' t'
  | _, _ => false
  end.

(** The scoped configuration has a parameter_validation entry whose
    text is the word false in any mix of upper and lower case. *)
Definition file_says_false (scoped_config : option (dict value)) : bool :=
  match scoped_config with
  | Some sc =>
      match dict_get "parameter_validation" sc with
      | Some v => equal_ignoring_case (str v) "false"
      | None => false
      end
  | None => false
  end.

(** Precedence read as: whenever an explicit config is given, its flag
    decides, whatever the scoped configuration says. *)
Definition explicit_config_decides : Prop :=
  forall c scoped_config,
    get_parameter_validation (Some c) scoped_config = parameter_validation c.

(** [name.startswith(p)] *)
Fixpoint startswith (p name : string) : bool :=
  match p with
  | EmptyString => true
  | String a p' =>
      match name with
      | EmptyString => false
      | String b name' => Ascii.eqb a b && startswith p' name'
      end
  end.

Definition is_before_call (e : event) : bool :=
  match e with
  | Emit name _ => startswith "before-call." name
  | MakeRequest _ _ => false
  end.

Definition is_after_call (e : event) : bool :=
  match e with
  | Emit name _ => startswith "after-call." name
  | MakeRequest _ _ => false
  end.

Definition is_dispatch (e : event) : bool :=
  match e with
  | Emit _ _ => false
  | MakeRequest _ _ => true
  end.

(** How often something happens in a trace. *)
Definition count (p : event -> bool) (trace : list event) : nat :=
  length (List.filter p trace).

(** Where something first happens in a trace. *)
Fixpoint position (p : event -> bool) (trace : list event) : option nat :=
  match trace with
  | [] => None
  | e :: rest =>
      if p e then Some 0%nat
      else match position p rest with
           | Some i => Some (S i)
           | None => None
           end
  end.

(** [p] happens, [q] happens, and [p] comes first. *)
Definition strictly_before (p q : event -> bool) (trace : list event) : Prop :=
  exists i j,
    position p trace = Some i /\ position q trace = Some j /\ (i < j)%nat.

(** The context a call builds for the operation it resolved. *)
Definition context_of (self : BaseClient) (om : OperationModel)
  : RequestContext :=
  mkRequestContext (region_name self) (config self) (has_streaming_input om).

(** What a call adds to the log, and how it ends. *)
Definition emitted {A : Type} (call : M A) : list event := fst (call []).
Definition outcome {A : Type} (call : M A) : result exn A := snd (call []).

End ClientSpec.

(** ** Reports and the keys they name *)

Module ReportSpec.

Import ConnectorSpec ClientSpec.

(** [key in msg], decided: the key starts the message or occurs further
    on. *)
Fixpoint occurs_in (key msg : string) : bool :=
  startswith key msg
  || match msg with
     | EmptyString => false
     | String _ rest => occurs_in key rest
     end.

(** The reading in which the report of a rejected mapping names each of
    its offending keys, whichever the validator met first. *)
Definition report_names_every_offending_key : Prop :=
  forall d k v msg,
    List.In (k, v) d ->
    offending k v = true ->
    Config._validate_connector_args (Some d)
    = raise (ParamValidationError msg) ->
    names msg k.

End ReportSpec.

(** ** Sample inputs *)

Module Samples.

Import Config.

(** The keyword options of botocore's [Config] that the client factory
    passes or reads. *)
Definition option_accepted (k : string) (v : value) : bool :=
  in_list k ["region_name"; "signature_version"; "user_agent";
             "user_agent_extra"; "connect_timeout"; "read_timeout";
             "parameter_validation"; "s3"].

Definition tuned : dict value :=
  [("limit", VInt 10); ("use_dns_cache", VBool true)].

Definition with_timeout : dict value :=
  [("keepalive_timeout", VFloat "7.5"); ("force_close", VBool false)].

Definition typo : dict value :=
  [("limit", VInt 10); ("keepalive_timout", VInt 5); ("verify_ssl", VStr "no")].

Definition flags_as_ints : dict value :=
  [("limit", VBool true); ("keepalive_timeout", VBool false)].

Definition first_args : dict value := [("limit", VInt 10)].
Definition second_args : dict value := [("limit", VInt 20)].
Definition first_kwargs : dict value :=
  [("region_name", VStr "us-east-1"); ("read_timeout", VInt 5)].
Definition second_kwargs : dict value :=
  [("read_timeout", VInt 60); ("user_agent", VStr "probe")].

(** Two configs built one after the other, each from its own mapping,
    and then merged. *)
Definition merged_pair
  : option (list (dict value) * AsyncConfig * AsyncConfig * AsyncConfig) :=
  match AsyncConfig_init option_accepted [first_args; second_args]
          (Some 0%nat) first_kwargs with
  | (h1, inr A) =>
      match AsyncConfig_init option_accepted h1 (Some 1%nat) second_kwargs with
      | (h2, inr B) =>
          match merge option_accepted h2 A B with
          | (h3, inr C) => Some (h3, A, B, C)
          | _ => None
          end
      | _ => None
      end
  | _ => None
  end.

(** The same run, step by step: the store and the two configs after both
    constructors have returned. *)
Definition store_after_both : list (dict value) :=
  [first_args; second_args;
   [("limit", VInt 10); ("keepalive_timeout", VInt 12)];
   [("limit", VInt 20); ("keepalive_timeout", VInt 12)]].

Definition first_config : AsyncConfig := mkAsyncConfig first_kwargs 2.
Definition second_config : AsyncConfig := mkAsyncConfig second_kwargs 3.

(** *** A client for a storage service and stand-ins for its
    collaborators *)

Import Client.

Definition storage_client : BaseClient :=
  mkBaseClient "s3" "us-east-1" first_config
    [("list_objects", "ListObjects"); ("get_object", "GetObject")]
    ["list_objects"; "get_object"]
    None.

Definition operation_model (name : string) : result exn OperationModel :=
  if in_list name ["ListObjects"; "GetObject"]
  then ret (mkOperationModel name false)
  else raise (OperationNotFoundError name).

Definition _convert_to_request_dict (api_params : dict value)
    (om : OperationModel) (ctx : RequestContext) : result exn (dict value) :=
  match dict_get "Bucket" api_params with
  | Some _ => ret (("url_path", VStr ("/" +:+ om_name om)) :: api_params)
  | None => raise (ParamValidationError "Missing required parameter: Bucket")
  end.

(** A signing handler that stamps the request in place. *)
Definition before_call_handlers (name : string) (request_dict : dict value)
  : dict value :=
  dict_set "signed" (VBool true) request_dict.

(** An endpoint that finds one bucket, misses another and cannot reach a
    third. *)
Definition make_request (om : OperationModel) (request_dict : dict value)
  : result exn (HttpResponse * dict value) :=
  match dict_get "Bucket" request_dict with
  | Some (VStr "photos") =>
      ret (mkHttpResponse 200, [("Contents", VStr "a.png")])
  | Some (VStr "offline") => raise (TransportFault "connection reset")
  | _ => ret (mkHttpResponse 404, [("Error", VStr "NoSuchBucket")])
  end.

(** botocore's [can_paginate], in outline: load the pagination metadata
    into the cache on first use, map the method name to the operation
    name and look that up. *)
Definition can_paginate (self : BaseClient) (operation_name : string)
  : BaseClient * result exn bool :=
  let self1 :=
    match page_config self with
    | Some _ => self
    | None =>
        mkBaseClient (endpoint_prefix self) (region_name self) (config self)
          (_PY_TO_OP_NAME self) (methods self)
          (Some [("ListObjects", VStr "Marker")])
    end in
  match dict_get operation_name (_PY_TO_OP_NAME self1) with
  | None => (self1, raise (KeyError operation_name))
  | Some actual =>
      (self1, ret (dict_contains actual (default [] (page_config self1))))
  end.

End Samples.

(** ** The rest of the client factory *)

Module Factory.

Import Client.

Section WithBotocore.

(** The keyword options botocore's [Config] takes. *)
Variable option_accepted : string -> value -> bool.

(** [self._inject_s3_configuration(config_kwargs, scoped_config,
    client_config)] is botocore's.  It rewrites [config_kwargs] in place;
    this is what it leaves there. *)
Variable _inject_s3_configuration :
  dict value -> option (dict value) -> option ClientConfig -> dict value.

(** Lines 63-77 of [_get_client_args]: the keywords are assembled, the
    s3 keywords injected, and the client's own config is constructed from
    them and from nothing else. *)
Definition new_config (h : Config.heap)
    (service_protocol default_user_agent : string)
    (endpoint_config : EndpointConfig) (scoped_config : option (dict value))
    (client_config : option ClientConfig)
  : Config.heap * result exn Config.AsyncConfig :=
  let kwargs :=
    config_kwargs (_get_client_args service_protocol default_user_agent
                     endpoint_config scoped_config client_config) in
  let kwargs := _inject_s3_configuration kwargs scoped_config client_config in
  Config.AsyncConfig_init option_accepted h None kwargs.

End WithBotocore.

End Factory.

(** ** The type of a value *)

Module PyTypes.

(** [type(v)], for the values of the model. *)
Inductive pytype : Type :=
| TNoneType
| TBool
| TInt
| TFloat
| TStr
| TClass (name : string).

Definition type_of (v : value) : pytype :=
  match v with
  | VNone => TNoneType
  | VBool _ => TBool
  | VInt _ => TInt
  | VFloat _ => TFloat
  | VStr _ => TStr
  | VObject c _ => TClass c
  end.

End PyTypes.

(** ** Further sample inputs *)

Module MoreSamples.

Import Config Client.

Definition tuned_reversed : dict value :=
  [("use_dns_cache", VBool true); ("limit", VInt 10)].

Definition with_none : dict value :=
  [("limit", VInt 10); ("ssl_context", VNone)].

Definition third_kwargs : dict value :=
  [("user_agent", VStr "batch"); ("connect_timeout", VInt 3)].

(** A config that set two options; only its options matter to a merge. *)
Definition third_config : AsyncConfig := mkAsyncConfig third_kwargs 3.

(** A config that set nothing. *)
Definition plain_config : AsyncConfig := mkAsyncConfig [] 3.

Definition bad_kwargs : dict value :=
  [("region_name", VStr "us-east-1"); ("retries", VInt 3)].

Definition explicit : ClientConfig :=
  mkClientConfig false (Some "probe") (Some "ci/7") (VInt 5) (VInt 60).

Definition resolved : EndpointConfig :=
  mkEndpointConfig (VStr "eu-west-1") (VStr "v4").

(** An s3 injection that adds the addressing style. *)
Definition _inject_s3_configuration (kwargs : dict value)
    (scoped_config : option (dict value))
    (client_config : option ClientConfig) : dict value :=
  dict_set "s3" (VStr "virtual") kwargs.

(** A client whose class lost the method of a pageable operation, and
    one whose cache has no metadata for it. *)
Definition client_without_method : BaseClient :=
  mkBaseClient "s3" "us-east-1" Samples.first_config
    [("list_objects", "ListObjects")] []
    (Some [("ListObjects", VStr "Marker")]).

Definition always_pageable (self : BaseClient) (operation_name : string)
  : BaseClient * result exn bool :=
  (self, ret true).

End MoreSamples.

(** ** Facts about dictionaries and the object store *)

Module PyFacts.

Lemma dict_get_set_eq {V : Type} (k : string) (v : V) (d : dict V) :
  dict_get k (dict_set k v d) = Some v.
Proof.
  induction d as [|[k' v'] d IH]; simpl.
  - now rewrite String.eqb_refl.
  - destruct (String.eqb k k') eqn:E; simpl; rewrite ?String.eqb_refl, ?E; auto.
Qed.

Lemma dict_get_set_ne {V : Type} (k k0 : string) (v : V) (d : dict V) :
  k0 <> k -> dict_get k0 (dict_set k v d) = dict_get k0 d.
Proof.
  intros Hne. induction d as [|[k' v'] d IH]; simpl.
  - destruct (String.eqb_spec k0 k); congruence.
  - destruct (String.eqb_spec k k') as [->|Hk]; simpl.
    + destruct (String.eqb_spec k0 k'); congruence.
    + destruct (String.eqb_spec k0 k'); auto.
Qed.

Lemma dict_get_set {V : Type} (k k0 : string) (v : V) (d : dict V) :
  dict_get k0 (dict_set k v d) =
  if String.eqb k0 k then Some v else dict_get k0 d.
Proof.
  destruct (String.eqb_spec k0 k) as [->|Hne].
  - apply dict_get_set_eq.
  - now apply dict_get_set_ne.
Qed.

(** Writing a key that is not there appends it. *)
Lemma dict_set_absent {V : Type} (k : string) (v : V) (d : dict V) :
  dict_get k d = None -> dict_set k v d = d ++ [(k, v)].
Proof.
  induction d as [|[k' v'] d IH]; simpl; intros H; [reflexivity|].
  destruct (String.eqb k k'); [discriminate|]. now rewrite IH.
Qed.

Lemma dict_get_None_not_in {V : Type} (k : string) (d : dict V) :
  dict_get k d = None <-> ~ List.In k (map fst d).
Proof.
  induction d as [|[k' v'] d IH]; simpl.
  - tauto.
  - destruct (String.eqb_spec k k') as [->|Hne].
    + split; [discriminate | intros H; exfalso; apply H; now left].
    + rewrite IH. split; intros H.
      * intros [Heq|Hin]; [congruence | tauto].
      * tauto.
Qed.

(** [d.update(other)] when [other] has pairwise distinct keys: the
    entries of [other] win, the rest of [d] stays. *)
Lemma dict_get_update {V : Type} (k : string) (d other : dict V) :
  dict_wf other ->
  dict_get k (dict_update d other) =
  match dict_get k other with
  | Some v => Some v
  | None => dict_get k d
  end.
Proof.
  unfold dict_update, dict_wf. revert d.
  induction other as [|[k' v'] other IH]; simpl; intros d Hwf; [reflexivity|].
  inversion Hwf as [|? ? Hnotin Hwf']; subst.
  rewrite IH by assumption.
  destruct (String.eqb_spec k k') as [->|Hne].
  - apply dict_get_None_not_in in Hnotin. rewrite Hnotin.
    apply dict_get_set_eq.
  - destruct (dict_get k other); [reflexivity|]. now apply dict_get_set_ne.
Qed.

(** Every entry of an updated mapping comes from one of the two. *)
Lemma dict_set_In {V : Type} (k : string) (v : V) (d : dict V)
    (kv : string * V) :
  List.In kv (dict_set k v d) -> kv = (k, v) \/ List.In kv d.
Proof.
  induction d as [|[k' v'] d IH]; simpl.
  - intros [H|[]]; auto.
  - destruct (String.eqb k k'); simpl; intros [H|H]; auto.
    destruct (IH H); auto.
Qed.

Lemma dict_update_In {V : Type} (d other : dict V) (kv : string * V) :
  List.In kv (dict_update d other) -> List.In kv d \/ List.In kv other.
Proof.
  unfold dict_update. revert d.
  induction other as [|[k' v'] other IH]; simpl; intros d H; [auto|].
  destruct (IH _ H) as [H1|H1]; [|auto].
  destruct (dict_set_In _ _ _ _ H1) as [->|H2]; auto.
Qed.

End PyFacts.

(** ** Facts about the validator and the constructor *)

Module ConfigFacts.

Import Config ConnectorSpec PyFacts.

Ltac case_key k s :=
  let E := fresh "E" in
  destruct (String.eqb_spec k s) as [E|E]; [subst k|].

Ltac all_keys k :=
  case_key k "use_dns_cache"; [|
  case_key k "verify_ssl"; [|
  case_key k "keepalive_timeout"; [|
  case_key k "force_close"; [|
  case_key k "limit"; [|
  case_key k "ssl_context"]]]]].

(** The validator accepts exactly the entries that are not offending. *)
Lemma check_connector_arg_ok (k : string) (v : value) :
  offending k v = false -> check_connector_arg k v = ret tt.
Proof.
  unfold offending, recognized, well_typed, check_connector_arg,
    recognized_keys, in_list.
  simpl.
  all_keys k; simpl; try discriminate;
    try (destruct v; simpl; intros H; try discriminate H; reflexivity).
  destruct v; simpl; intros H; try discriminate H; try reflexivity.
  now rewrite H.
Qed.

Lemma string_app_empty_r (s : string) : s +:+ "" = s.
Proof.
  induction s as [|c s IH]; [reflexivity|].
  change (String c (s +:+ "") = String c s). now rewrite IH.
Qed.

Lemma report_shape_names (msg k : string) : report_shape msg k -> names msg k.
Proof.
  intros [[suffix ->] | ->].
  - exists "", suffix. reflexivity.
  - exists "invalid connector_arg:", "". now rewrite string_app_empty_r.
Qed.

Ltac key_report :=
  eexists; split; [reflexivity | left; eexists; reflexivity].

Lemma check_connector_arg_bad (k : string) (v : value) :
  offending k v = true ->
  exists msg,
    check_connector_arg k v = raise (ParamValidationError msg)
    /\ report_shape msg k.
Proof.
  unfold offending, recognized, well_typed, check_connector_arg,
    recognized_keys, in_list, report_shape.
  simpl.
  all_keys k; simpl;
    try (destruct v; simpl; intros H; try discriminate H; key_report).
  - destruct v; simpl; intros H; try discriminate H; try key_report.
    rewrite H. simpl. key_report.
  - intros _. eexists; split; [reflexivity | right; reflexivity].
Qed.

(** The loop stops at the first offending entry in iteration order. *)
Lemma validate_items_first (d : dict value) :
  match find offending_entry d with
  | Some (k, v) => validate_items d = check_connector_arg k v
  | None => validate_items d = ret tt
  end.
Proof.
  induction d as [|[k v] d IH]; simpl; [reflexivity|].
  unfold offending_entry at 1; simpl.
  destruct (offending k v) eqn:E.
  - destruct (check_connector_arg_bad k v E) as (msg & -> & _). reflexivity.
  - rewrite (check_connector_arg_ok k v E). exact IH.
Qed.

Lemma validate_items_ok_iff (d : dict value) :
  validate_items d = ret tt <->
  (forall k v, List.In (k, v) d -> offending k v = false).
Proof.
  split.
  - intros H k v Hin.
    pose proof (validate_items_first d) as F.
    destruct (find offending_entry d) as [[k0 v0]|] eqn:Ef.
    + apply find_some in Ef as [_ Hoff]. unfold offending_entry in Hoff.
      simpl in Hoff.
      destruct (check_connector_arg_bad k0 v0 Hoff) as (msg & Hm & _).
      rewrite F, Hm in H. discriminate.
    + destruct (offending k v) eqn:E; [|reflexivity].
      pose proof (find_none _ _ Ef (k, v) Hin) as Hn.
      unfold offending_entry in Hn. simpl in Hn. congruence.
  - intros H. pose proof (validate_items_first d) as F.
    destruct (find offending_entry d) as [[k0 v0]|] eqn:Ef; [|exact F].
    apply find_some in Ef as [Hin Hoff]. unfold offending_entry in Hoff.
    simpl in Hoff. rewrite (H _ _ Hin) in Hoff. discriminate.
Qed.

(** *** The object store *)

Lemma load_lookup (h : heap) (r : ref) (d : dict value) :
  h !! r = Some d -> load h r = d.
Proof. unfold load. now intros ->. Qed.

Lemma load_alloc (h : heap) (d : dict value) :
  load (fst (alloc h d)) (snd (alloc h d)) = d.
Proof.
  unfold load, alloc; simpl.
  rewrite (list_lookup_middle h [] d (length h) eq_refl). reflexivity.
Qed.

Lemma lookup_alloc_old (h : heap) (d d0 : dict value) (r : ref) :
  h !! r = Some d0 -> fst (alloc h d) !! r = Some d0.
Proof.
  intros H. unfold alloc; simpl.
  rewrite lookup_app_l; [assumption|]. eapply lookup_lt_Some; eassumption.
Qed.

Lemma length_alloc (h : heap) (d : dict value) :
  length (fst (alloc h d)) = S (length h) /\ snd (alloc h d) = length h.
Proof. unfold alloc; simpl. rewrite length_app. simpl. lia. Qed.

Lemma load_store (h : heap) (r : ref) (d : dict value) :
  (r < length h)%nat -> load (store h r d) r = d.
Proof.
  intros H. unfold load, store. now rewrite list_lookup_insert_eq.
Qed.

Lemma lookup_store_ne (h : heap) (r r0 : ref) (d : dict value) :
  r <> r0 -> store h r d !! r0 = h !! r0.
Proof. intros H. unfold store. now apply list_lookup_insert_ne. Qed.

(** *** The constructor *)

(** The copy is a new object that holds the caller's items, and every
    object that was there before is still there, unchanged. *)
Lemma copy_or_new_spec (h : heap) (arg : option ref) :
  forall h1 r1, copy_or_new h arg = (h1, r1) ->
    (length h <= r1 < length h1)%nat
    /\ load h1 r1 = given h arg
    /\ (forall r0 d0, h !! r0 = Some d0 -> h1 !! r0 = Some d0).
Proof.
  intros h1 r1. unfold copy_or_new.
  destruct arg as [r|].
  - destruct (alloc h (load h r)) as [ha ra] eqn:Ea.
    pose proof (load_alloc h (load h r)) as La.
    pose proof (length_alloc h (load h r)) as [Lena Ra].
    rewrite Ea in La, Lena, Ra. simpl in La, Lena, Ra.
    assert (Fa : forall r0 d0, h !! r0 = Some d0 -> ha !! r0 = Some d0).
    { intros r0 d0 H0. pose proof (lookup_alloc_old h (load h r) d0 r0 H0) as F.
      now rewrite Ea in F. }
    destruct (dict_truthy (load ha ra)) eqn:Et; simpl.
    + intros [= <- <-]. repeat split; try lia; auto.
    + intros Eb.
      pose proof (load_alloc ha []) as Lb.
      pose proof (length_alloc ha []) as [Lenb Rb].
      rewrite Eb in Lb, Lenb, Rb. simpl in Lb, Lenb, Rb.
      repeat split; try lia.
      * simpl. rewrite Lb. rewrite La in Et.
        destruct (load h r); [reflexivity | discriminate].
      * intros r0 d0 H0.
        pose proof (lookup_alloc_old ha [] d0 r0 (Fa _ _ H0)) as F.
        now rewrite Eb in F.
  - intros Ea.
    pose proof (load_alloc h []) as La.
    pose proof (length_alloc h []) as [Lena Ra].
    rewrite Ea in La, Lena, Ra. simpl in La, Lena, Ra.
    repeat split; try lia; auto.
    intros r0 d0 H0. pose proof (lookup_alloc_old h [] d0 r0 H0) as F.
    now rewrite Ea in F.
Qed.

Section WithBaseClass.

Variable option_accepted : string -> value -> bool.

(** When the base class took the keywords and the validator passed, the
    constructor returns; the new config holds a fresh object with the
    caller's items and the keep-alive default filled in. *)
Lemma AsyncConfig_init_returns (h : heap) (arg : option ref)
    (kwargs opts : dict value) :
  Config_init option_accepted kwargs = ret opts ->
  validate_items (given h arg) = ret tt ->
  exists h' r',
    AsyncConfig_init option_accepted h arg kwargs
      = (h', ret (mkAsyncConfig opts r'))
    /\ (length h <= r' < length h')%nat
    /\ load h' r' = with_keepalive_default (given h arg)
    /\ (forall r0 d0, h !! r0 = Some d0 -> h' !! r0 = Some d0).
Proof.
  intros Hc Hv. unfold AsyncConfig_init. rewrite Hc.
  assert (Hv' : _validate_connector_args (option_map (load h) arg) = ret tt).
  { destruct arg; simpl; [exact Hv | reflexivity]. }
  rewrite Hv'.
  destruct (copy_or_new h arg) as [h1 r1] eqn:E.
  destruct (copy_or_new_spec h arg h1 r1 E) as (Hb & Hl & Hf).
  unfold with_keepalive_default. rewrite <- Hl.
  destruct (dict_contains "keepalive_timeout" (load h1 r1)); simpl.
  - exists h1, r1. repeat split; try lia; auto.
  - eexists _, r1. split; [reflexivity|].
    unfold store. rewrite length_insert. repeat split; try lia.
    + apply load_store. lia.
    + intros r0 d0 H0. rewrite list_lookup_insert_ne; [auto|].
      apply lookup_lt_Some in H0. lia.
Qed.

(** Whatever the outcome, the constructor leaves every object that
    existed before the call as it was. *)
Lemma AsyncConfig_init_frame (h : heap) (arg : option ref)
    (kwargs : dict value) :
  forall r0 d0, h !! r0 = Some d0 ->
    fst (AsyncConfig_init option_accepted h arg kwargs) !! r0 = Some d0.
Proof.
  intros r0 d0 H0. unfold AsyncConfig_init.
  destruct (Config_init option_accepted kwargs) as [e|opts]; [exact H0|].
  destruct (_validate_connector_args (option_map (load h) arg)) as [e|[]];
    [exact H0|].
  destruct (copy_or_new h arg) as [h1 r1] eqn:E.
  destruct (copy_or_new_spec h arg h1 r1 E) as (Hb & _ & Hf).
  destruct (negb (dict_contains "keepalive_timeout" (load h1 r1))); simpl.
  - unfold store. rewrite list_lookup_insert_ne; [auto|].
    apply lookup_lt_Some in H0. lia.
  - auto.
Qed.

(** A validation failure leaves the constructor with that very error. *)
Lemma AsyncConfig_init_rejects (h : heap) (r : ref) (d kwargs opts : dict value)
    (e : exn) :
  h !! r = Some d ->
  Config_init option_accepted kwargs = ret opts ->
  validate_items d = raise e ->
  AsyncConfig_init option_accepted h (Some r) kwargs = (h, raise e).
Proof.
  intros Hr Hc Hv. unfold AsyncConfig_init. rewrite Hc. simpl.
  rewrite (load_lookup _ _ _ Hr), Hv. reflexivity.
Qed.

Lemma Config_init_accepts (kwargs : dict value) :
  (forall k v, List.In (k, v) kwargs -> option_accepted k v = true) ->
  Config_init option_accepted kwargs = ret kwargs.
Proof.
  intros H. unfold Config_init.
  destruct (find _ kwargs) as [[k v]|] eqn:E; [|reflexivity].
  apply find_some in E as [Hin Hn]. simpl in Hn.
  rewrite (H _ _ Hin) in Hn. discriminate.
Qed.

Lemma Config_init_ret_inv (kwargs opts : dict value) :
  Config_init option_accepted kwargs = ret opts ->
  opts = kwargs
  /\ (forall k v, List.In (k, v) kwargs -> option_accepted k v = true).
Proof.
  unfold Config_init.
  destruct (find _ kwargs) as [[k v]|] eqn:E; [discriminate|].
  intros [= <-]. split; [reflexivity|].
  intros k v Hin. pose proof (find_none _ _ E (k, v) Hin) as Hn.
  simpl in Hn. now destruct (option_accepted k v).
Qed.

End WithBaseClass.

End ConfigFacts.

(** ** Properties of the connector configuration *)

Module ConfigClaims.

Import Config ConnectorSpec PyFacts ConfigFacts.

Lemma with_keepalive_default_valid (d : dict value) :
  validate_items d = ret tt ->
  validate_items (with_keepalive_default d) = ret tt.
Proof.
  intros H. unfold with_keepalive_default.
  destruct (dict_contains "keepalive_timeout" d); [exact H|].
  apply validate_items_ok_iff. intros k v Hin.
  apply dict_set_In in Hin as [[= -> ->]|Hin]; [reflexivity|].
  revert k v Hin. now apply validate_items_ok_iff.
Qed.

Lemma with_keepalive_default_contains (d : dict value) :
  dict_contains "keepalive_timeout" (with_keepalive_default d) = true.
Proof.
  unfold with_keepalive_default.
  destruct (dict_contains "keepalive_timeout" d) eqn:E; [exact E|].
  unfold dict_contains. now rewrite dict_get_set_eq.
Qed.

Lemma strictly_typed_well_typed (k : string) (v : value) :
  strictly_typed k v = true -> well_typed k v = true.
Proof.
  unfold strictly_typed, well_typed.
  destruct (in_list k _); [auto|].
  destruct (String.eqb k "keepalive_timeout").
  { destruct v; simpl; auto. }
  destruct (String.eqb k "limit"); [destruct v; simpl; auto|auto].
Qed.

(** C3, as amended: a connector-options mapping with at least one entry
    whose key is not recognized, or whose value does not have the type
    of its key, is rejected: the validator, and with it the constructor,
    raises ParamValidationError (the ConfigValidationError of the design
    documents), and the report names the first offending key in
    iteration order; when the mapping has a single offending key, that
    is the key named.  No such mapping is accepted. *)
Theorem offending_connector_args_rejected
    (d : dict value) (k : string) (v : value) :
  List.In (k, v) d ->
  offending k v = true ->
  exists k0 v0 msg,
    find offending_entry d = Some (k0, v0)
    /\ List.In (k0, v0) d
    /\ offending k0 v0 = true
    /\ report_shape msg k0
    /\ names msg k0
    /\ _validate_connector_args (Some d) = raise (ParamValidationError msg)
    /\ (forall option_accepted h r kwargs opts,
          h !! r = Some d ->
          Config_init option_accepted kwargs = ret opts ->
          AsyncConfig_init option_accepted h (Some r) kwargs
          = (h, raise (ParamValidationError msg)))
    /\ ((forall k' v', List.In (k', v') d -> offending k' v' = true -> k' = k)
        -> k0 = k).
Proof.
  intros Hin Hoff.
  pose proof (validate_items_first d) as F.
  destruct (find offending_entry d) as [[k0 v0]|] eqn:Ef.
  - pose proof (find_some _ _ Ef) as [Hin0 Hoff0].
    unfold offending_entry in Hoff0; simpl in Hoff0.
    destruct (check_connector_arg_bad k0 v0 Hoff0) as (msg & Hmsg & Hshape).
    exists k0, v0, msg.
    assert (Hv : validate_items d = raise (ParamValidationError msg))
      by now rewrite F.
    repeat split; auto.
    + now apply report_shape_names.
    + intros oa h r kwargs opts Hr Hc.
      now apply (AsyncConfig_init_rejects oa h r d kwargs opts).
    + intros Huniq. now apply (Huniq k0 v0).
  - pose proof (find_none _ _ Ef (k, v) Hin) as Hn.
    unfold offending_entry in Hn; simpl in Hn. congruence.
Qed.

(** C6: for a connector-options mapping whose keys are all recognized and
    whose values all have the type of their key, construction succeeds;
    the keep-alive default 12 is filled in exactly when the key
    keepalive_timeout was absent from the input, and when it was present
    the input's value is kept.  All other options are carried unchanged. *)
Theorem valid_connector_args_accepted
    (option_accepted : string -> value -> bool)
    (h : heap) (r : ref) (d kwargs opts : dict value) :
  h !! r = Some d ->
  (forall k v, List.In (k, v) d -> offending k v = false) ->
  Config_init option_accepted kwargs = ret opts ->
  exists h' c,
    AsyncConfig_init option_accepted h (Some r) kwargs = (h', ret c)
    /\ (dict_get "keepalive_timeout" d = None ->
          load h' (connector_args c) = d ++ [("keepalive_timeout", VInt 12)]
          /\ dict_get "keepalive_timeout" (load h' (connector_args c))
             = Some (VInt 12))
    /\ (forall v, dict_get "keepalive_timeout" d = Some v ->
          load h' (connector_args c) = d
          /\ dict_get "keepalive_timeout" (load h' (connector_args c))
             = Some v)
    /\ (load h' (connector_args c) <> d
        <-> dict_get "keepalive_timeout" d = None)
    /\ (forall k, k <> "keepalive_timeout" ->
          dict_get k (load h' (connector_args c)) = dict_get k d).
Proof.
  intros Hr Hok Hc.
  apply validate_items_ok_iff in Hok.
  destruct (AsyncConfig_init_returns option_accepted h (Some r) kwargs opts Hc)
    as (h' & r' & Hinit & _ & Hload & _).
  { simpl. now rewrite (load_lookup _ _ _ Hr). }
  simpl in Hload. rewrite (load_lookup _ _ _ Hr) in Hload.
  exists h', (mkAsyncConfig opts r'). simpl. rewrite Hload.
  unfold with_keepalive_default, dict_contains.
  split; [exact Hinit|].
  destruct (dict_get "keepalive_timeout" d) as [v0|] eqn:Eg.
  - repeat split; try discriminate; congruence.
  - pose proof (dict_set_absent "keepalive_timeout" (VInt 12) d Eg) as Hs.
    split; [|split; [|split]].
    + intros _. split; [exact Hs | apply dict_get_set_eq].
    + intros v Hv. discriminate Hv.
    + split; [reflexivity|].
      intros _ Heq. rewrite Hs in Heq.
      apply (f_equal (@length _)) in Heq.
      rewrite length_app in Heq. simpl in Heq. lia.
    + intros k Hk. now apply dict_get_set_ne.
Qed.

(** C9: constructing an AsyncConfig never changes the mapping the caller
    passed: after the call, whether it returned or raised, the caller's
    object holds the items it held before, as does every other object;
    the config's own options live in a different, new object. *)
Theorem init_leaves_caller_mapping
    (option_accepted : string -> value -> bool)
    (h : heap) (r : ref) (d kwargs : dict value) :
  h !! r = Some d ->
  fst (AsyncConfig_init option_accepted h (Some r) kwargs) !! r = Some d
  /\ (forall r0 d0, h !! r0 = Some d0 ->
        fst (AsyncConfig_init option_accepted h (Some r) kwargs) !! r0
        = Some d0)
  /\ (forall c,
        snd (AsyncConfig_init option_accepted h (Some r) kwargs) = ret c ->
        connector_args c <> r).
Proof.
  intros Hr. split; [|split].
  - now apply AsyncConfig_init_frame.
  - intros r0 d0. apply AsyncConfig_init_frame.
  - intros c. unfold AsyncConfig_init.
    destruct (Config_init option_accepted kwargs) as [e|opts];
      [discriminate|].
    destruct (_validate_connector_args _) as [e|[]]; [discriminate|].
    destruct (copy_or_new h (Some r)) as [h1 r1] eqn:E.
    destruct (copy_or_new_spec h (Some r) h1 r1 E) as (Hb & _ & _).
    simpl. intros [= <-]. simpl.
    apply lookup_lt_Some in Hr. lia.
Qed.

(** C10: a boolean is accepted for the integer-typed options limit and
    keepalive_timeout.  The validator passes either option bound to a
    boolean, and for every mapping whose entries are recognized and are
    strictly typed or bind one of these two options to a boolean,
    construction succeeds. *)
Theorem bool_accepted_for_int_options
    (option_accepted : string -> value -> bool)
    (h : heap) (r : ref) (d kwargs opts : dict value) :
  h !! r = Some d ->
  Config_init option_accepted kwargs = ret opts ->
  (forall k v, List.In (k, v) d ->
     recognized k = true
     /\ (strictly_typed k v = true \/ bool_for_int_option k v)) ->
  (forall b, check_connector_arg "limit" (VBool b) = ret tt
             /\ check_connector_arg "keepalive_timeout" (VBool b) = ret tt)
  /\ _validate_connector_args (Some d) = ret tt
  /\ exists h' c,
       AsyncConfig_init option_accepted h (Some r) kwargs = (h', ret c)
       /\ load h' (connector_args c) = with_keepalive_default d.
Proof.
  intros Hr Hc Hd.
  assert (Hv : validate_items d = ret tt).
  { apply validate_items_ok_iff. intros k v Hin.
    destruct (Hd k v Hin) as [Hrec [Hty | [[-> | ->] [b ->]]]];
      try reflexivity.
    unfold offending. rewrite Hrec, (strictly_typed_well_typed _ _ Hty).
    reflexivity. }
  split; [intros b; split; reflexivity|].
  split; [exact Hv|].
  destruct (AsyncConfig_init_returns option_accepted h (Some r) kwargs opts Hc)
    as (h' & r' & Hinit & _ & Hload & _).
  { simpl. now rewrite (load_lookup _ _ _ Hr). }
  exists h', (mkAsyncConfig opts r'). split; [exact Hinit|].
  simpl in *. now rewrite (load_lookup _ _ _ Hr) in Hload.
Qed.

(** C4, as amended: merging A with B yields a config whose explicitly
    set options are B's wherever B set them and A's otherwise, and whose
    connector options are always A's, held in a new object; B's connector
    options play no part in the result. *)
Theorem merge_overrides_options_keeps_first_connector_args
    (option_accepted : string -> value -> bool)
    (h : heap) (A B : AsyncConfig) :
  built option_accepted h A ->
  (forall k v, List.In (k, v) (_user_provided_options B) ->
     option_accepted k v = true) ->
  dict_wf (_user_provided_options B) ->
  exists h' C,
    merge option_accepted h A B = (h', ret C)
    /\ (forall k,
          dict_get k (_user_provided_options C)
          = match dict_get k (_user_provided_options B) with
            | Some v => Some v
            | None => dict_get k (_user_provided_options A)
            end)
    /\ load h' (connector_args C) = load h (connector_args A)
    /\ connector_args C <> connector_args A
    /\ (forall r0 d0, h !! r0 = Some d0 -> h' !! r0 = Some d0)
    /\ (forall rB,
          merge option_accepted h A
            (mkAsyncConfig (_user_provided_options B) rB)
          = merge option_accepted h A B)
    /\ built option_accepted h' C.
Proof.
  intros (d & Hr & Hv & Hk & HaccA) HaccB HwfB.
  set (opts := dict_update (_user_provided_options A)
                           (_user_provided_options B)).
  assert (Hacc : forall k v, List.In (k, v) opts -> option_accepted k v = true).
  { intros k v Hin. apply dict_update_In in Hin as [Hin|Hin]; auto. }
  pose proof (Config_init_accepts option_accepted opts Hacc) as Hc.
  destruct (AsyncConfig_init_returns option_accepted h
              (Some (connector_args A)) opts opts Hc)
    as (h' & r' & Hinit & Hb & Hload & Hf).
  { simpl. now rewrite (load_lookup _ _ _ Hr). }
  simpl in Hload. rewrite (load_lookup _ _ _ Hr) in Hload.
  assert (Hd : with_keepalive_default d = d).
  { unfold with_keepalive_default. now rewrite Hk. }
  rewrite Hd in Hload.
  exists h', (mkAsyncConfig opts r'). simpl.
  split; [exact Hinit|].
  split; [intros k; now apply dict_get_update|].
  split; [now rewrite Hload, (load_lookup _ _ _ Hr)|].
  split; [apply lookup_lt_Some in Hr; lia|].
  split; [exact Hf|].
  split; [reflexivity|].
  exists d. simpl. repeat split; auto.
  unfold load in Hload.
  destruct (h' !! r') as [d'|] eqn:E.
  - simpl in Hload. now subst d'.
  - apply lookup_ge_None in E. lia.
Qed.

(** The sample run builds the two sample configs in the sample store. *)
Example sample_configs_built :
  AsyncConfig_init Samples.option_accepted
    [Samples.first_args; Samples.second_args] (Some 0%nat)
    Samples.first_kwargs
  = ([Samples.first_args; Samples.second_args;
      [("limit", VInt 10); ("keepalive_timeout", VInt 12)]],
     ret Samples.first_config)
  /\ AsyncConfig_init Samples.option_accepted
       [Samples.first_args; Samples.second_args;
        [("limit", VInt 10); ("keepalive_timeout", VInt 12)]] (Some 1%nat)
       Samples.second_kwargs
     = (Samples.store_after_both, ret Samples.second_config).
Proof. split; reflexivity. Qed.

(** C4 as stated fails: both configs were given connector options of
    their own, and the merged config has the first one's, not the
    second's. *)
Lemma merge_ignores_second_connector_args :
  (exists h A B C,
     Samples.merged_pair = Some (h, A, B, C)
     /\ load h (connector_args A)
        = [("limit", VInt 10); ("keepalive_timeout", VInt 12)]
     /\ load h (connector_args B)
        = [("limit", VInt 20); ("keepalive_timeout", VInt 12)]
     /\ load h (connector_args C)
        = [("limit", VInt 10); ("keepalive_timeout", VInt 12)])
  /\ ~ merge_takes_second_connector_args Samples.option_accepted.
Proof.
  split.
  - do 4 eexists. split; [reflexivity|]. repeat split; reflexivity.
  - intros H.
    destruct sample_configs_built as [HA HB].
    specialize (H _ _ _ _ _ _ _ _ _ _ _ HA HB eq_refl).
    vm_compute in H. discriminate H.
Qed.

Lemma merge_overrides_options_keeps_first_connector_args_witness :
  built Samples.option_accepted Samples.store_after_both Samples.first_config
  /\ dict_wf (_user_provided_options Samples.second_config)
  /\ exists h' C,
       merge Samples.option_accepted Samples.store_after_both
         Samples.first_config Samples.second_config = (h', ret C)
       /\ dict_get "read_timeout" (_user_provided_options C)
          = Some (VInt 60)
       /\ dict_get "region_name" (_user_provided_options C)
          = Some (VStr "us-east-1")
       /\ load h' (connector_args C)
          = [("limit", VInt 10); ("keepalive_timeout", VInt 12)].
Proof.
  assert (Hb : built Samples.option_accepted Samples.store_after_both
                 Samples.first_config).
  { exists [("limit", VInt 10); ("keepalive_timeout", VInt 12)].
    repeat split; try reflexivity.
    apply (Config_init_ret_inv Samples.option_accepted _ Samples.first_kwargs).
    reflexivity. }
  assert (Hacc : forall k v,
             List.In (k, v) (_user_provided_options Samples.second_config) ->
             Samples.option_accepted k v = true).
  { apply (Config_init_ret_inv Samples.option_accepted _ Samples.second_kwargs).
    reflexivity. }
  assert (Hwf : dict_wf (_user_provided_options Samples.second_config)).
  { unfold dict_wf. simpl. repeat constructor; simpl; intuition discriminate. }
  split; [exact Hb|]. split; [exact Hwf|].
  destruct (merge_overrides_options_keeps_first_connector_args
              Samples.option_accepted Samples.store_after_both
              Samples.first_config Samples.second_config Hb Hacc Hwf)
    as (h' & C & Hm & Hget & Hload & _).
  exists h', C. split; [exact Hm|].
  split; [rewrite Hget; reflexivity|].
  split; [rewrite Hget; reflexivity|].
  rewrite Hload. reflexivity.
Defined.

Lemma offending_connector_args_rejected_witness :
  List.In ("verify_ssl", VStr "no") Samples.typo
  /\ offending "verify_ssl" (VStr "no") = true
  /\ exists k0 v0 msg,
       find offending_entry Samples.typo = Some (k0, v0)
       /\ List.In (k0, v0) Samples.typo
       /\ offending k0 v0 = true
       /\ report_shape msg k0
       /\ names msg k0
       /\ _validate_connector_args (Some Samples.typo)
          = raise (ParamValidationError msg)
       /\ (forall option_accepted h r kwargs opts,
             h !! r = Some Samples.typo ->
             Config_init option_accepted kwargs = ret opts ->
             AsyncConfig_init option_accepted h (Some r) kwargs
             = (h, raise (ParamValidationError msg)))
       /\ ((forall k' v', List.In (k', v') Samples.typo ->
              offending k' v' = true -> k' = "verify_ssl")
           -> k0 = "verify_ssl").
Proof.
  split; [simpl; tauto|]. split; [reflexivity|].
  apply (offending_connector_args_rejected Samples.typo
           "verify_ssl" (VStr "no")); [simpl; tauto | reflexivity].
Defined.

(** In the sample with two offending entries the report names the first
    one, the misspelt option. *)
Example typo_report :
  _validate_connector_args (Some Samples.typo)
  = raise (ParamValidationError "invalid connector_arg:keepalive_timout").
Proof. reflexivity. Qed.

Lemma startswith_app (key post : string) :
  ClientSpec.startswith key (key +:+ post) = true.
Proof.
  induction key as [|a key IH]; [reflexivity|].
  change (String a key +:+ post) with (String a (key +:+ post)).
  cbn [ClientSpec.startswith]. now rewrite Ascii.eqb_refl, IH.
Qed.

Lemma occurs_in_unfold (key msg : string) :
  ReportSpec.occurs_in key msg
  = ClientSpec.startswith key msg
    || match msg with
       | EmptyString => false
       | String _ rest => ReportSpec.occurs_in key rest
       end.
Proof. destruct msg; reflexivity. Qed.

(** A key that a message names occurs in it. *)
Lemma names_occurs_in (msg key : string) :
  names msg key -> ReportSpec.occurs_in key msg = true.
Proof.
  intros (pre & post & ->).
  induction pre as [|a pre IH].
  - change ("" +:+ key +:+ post) with (key +:+ post).
    rewrite occurs_in_unfold, startswith_app. reflexivity.
  - change (String a pre +:+ key +:+ post)
      with (String a (pre +:+ key +:+ post)).
    rewrite occurs_in_unfold, IH. apply orb_true_r.
Qed.

(** C3 as stated fails: the sample mapping has two offending entries,
    the misspelt option and verify_ssl bound to a string; the report
    names the misspelt option, which comes first, and verify_ssl does
    not occur in it. *)
Lemma report_omits_later_offending_key :
  List.In ("verify_ssl", VStr "no") Samples.typo
  /\ offending "verify_ssl" (VStr "no") = true
  /\ _validate_connector_args (Some Samples.typo)
     = raise (ParamValidationError "invalid connector_arg:keepalive_timout")
  /\ ~ names "invalid connector_arg:keepalive_timout" "verify_ssl"
  /\ ~ ReportSpec.report_names_every_offending_key.
Proof.
  assert (Hin : List.In ("verify_ssl", VStr "no") Samples.typo)
    by (simpl; tauto).
  assert (Hno : ~ names "invalid connector_arg:keepalive_timout"
                    "verify_ssl").
  { intros H. apply names_occurs_in in H. discriminate H. }
  repeat split; auto.
  intros H. apply Hno.
  exact (H Samples.typo "verify_ssl" (VStr "no") _ Hin eq_refl eq_refl).
Qed.

Lemma valid_connector_args_accepted_witness :
  [Samples.tuned] !! 0%nat = Some Samples.tuned
  /\ (forall k v, List.In (k, v) Samples.tuned -> offending k v = false)
  /\ Config_init Samples.option_accepted Samples.first_kwargs
     = ret Samples.first_kwargs
  /\ exists h' c,
       AsyncConfig_init Samples.option_accepted [Samples.tuned] (Some 0%nat)
         Samples.first_kwargs = (h', ret c)
       /\ load h' (connector_args c)
          = Samples.tuned ++ [("keepalive_timeout", VInt 12)].
Proof.
  assert (Hok : forall k v, List.In (k, v) Samples.tuned ->
                            offending k v = false).
  { apply validate_items_ok_iff. reflexivity. }
  split; [reflexivity|]. split; [exact Hok|]. split; [reflexivity|].
  destruct (valid_connector_args_accepted Samples.option_accepted
              [Samples.tuned] 0%nat Samples.tuned Samples.first_kwargs
              Samples.first_kwargs eq_refl Hok eq_refl)
    as (h' & c & Hinit & Habsent & _).
  exists h', c. split; [exact Hinit|].
  now apply Habsent.
Defined.

(** A mapping that brings its own keep-alive value keeps it. *)
Example with_timeout_kept :
  exists h' c,
    AsyncConfig_init Samples.option_accepted [Samples.with_timeout]
      (Some 0%nat) [] = (h', ret c)
    /\ load h' (connector_args c) = Samples.with_timeout.
Proof. do 2 eexists. split; reflexivity. Qed.

Lemma init_leaves_caller_mapping_witness :
  [Samples.tuned] !! 0%nat = Some Samples.tuned
  /\ fst (AsyncConfig_init Samples.option_accepted [Samples.tuned]
            (Some 0%nat) Samples.first_kwargs) !! 0%nat
     = Some Samples.tuned.
Proof.
  split; [reflexivity|].
  exact (proj1 (init_leaves_caller_mapping Samples.option_accepted
                  [Samples.tuned] 0%nat Samples.tuned Samples.first_kwargs
                  eq_refl)).
Defined.

Lemma bool_accepted_for_int_options_witness :
  [Samples.flags_as_ints] !! 0%nat = Some Samples.flags_as_ints
  /\ Config_init Samples.option_accepted [] = ret []
  /\ exists h' c,
       AsyncConfig_init Samples.option_accepted [Samples.flags_as_ints]
         (Some 0%nat) [] = (h', ret c)
       /\ load h' (connector_args c) = Samples.flags_as_ints.
Proof.
  split; [reflexivity|]. split; [reflexivity|].
  destruct (bool_accepted_for_int_options Samples.option_accepted
              [Samples.flags_as_ints] 0%nat Samples.flags_as_ints [] []
              eq_refl eq_refl)
    as (_ & _ & h' & c & Hinit & Hload).
  { intros k v [[= <- <-]|[[= <- <-]|[]]]; (split; [reflexivity|]);
      right; (split; [auto | eexists; reflexivity]). }
  exists h', c. split; [exact Hinit|]. rewrite Hload. reflexivity.
Defined.

End ConfigClaims.

(** ** Properties of the client factory and the bound client *)

Module ClientClaims.

Import Client ClientSpec.

Section Calls.

Variable operation_model : string -> result exn OperationModel.
Variable _convert_to_request_dict :
  dict value -> OperationModel -> RequestContext -> result exn (dict value).
Variable before_call_handlers : string -> dict value -> dict value.
Variable make_request :
  OperationModel -> dict value -> result exn (HttpResponse * dict value).

Let api_call := _make_api_call operation_model _convert_to_request_dict
                  before_call_handlers make_request.

(** A call that does not get as far as the hooks leaves no trace. *)
Lemma api_call_unresolved (self : BaseClient) (op : string)
    (api_params : dict value) (t : list event) (e : exn) :
  operation_model op = raise e ->
  api_call self op api_params t = (t, raise e).
Proof.
  intros H. unfold api_call, _make_api_call, mbind, lift. now rewrite H.
Qed.

Lemma api_call_unserialized (self : BaseClient) (op : string)
    (api_params : dict value) (t : list event) (om : OperationModel) (e : exn) :
  operation_model op = ret om ->
  _convert_to_request_dict api_params om (context_of self om) = raise e ->
  api_call self op api_params t = (t, raise e).
Proof.
  intros H1 H2. unfold api_call, _make_api_call, mbind, lift.
  rewrite H1. simpl. unfold context_of in H2. now rewrite H2.
Qed.

(** A call whose dispatch brings back a response. *)
Lemma api_call_answered (self : BaseClient) (op : string)
    (api_params : dict value) (t : list event) (om : OperationModel)
    (rd parsed : dict value) (http : HttpResponse) :
  operation_model op = ret om ->
  _convert_to_request_dict api_params om (context_of self om) = ret rd ->
  make_request om (before_call_handlers (before_call_name self op) rd)
    = ret (http, parsed) ->
  api_call self op api_params t
  = (t ++ [Emit (before_call_name self op)
             (BeforeCallArgs om rd (context_of self om));
           MakeRequest om
             (before_call_handlers (before_call_name self op) rd);
           Emit (after_call_name self op)
             (AfterCallArgs http parsed om (context_of self om))],
     if (status_code http >=? 300)%Z
     then raise (ClientError parsed op)
     else ret parsed).
Proof.
  intros H1 H2 H3. unfold api_call, _make_api_call, mbind, lift, log.
  rewrite H1. simpl. unfold context_of in *. rewrite H2. simpl.
  rewrite H3. simpl. rewrite <- !app_assoc. simpl.
  destruct (status_code http >=? 300)%Z; reflexivity.
Qed.

(** A call whose dispatch raises. *)
Lemma api_call_faulted (self : BaseClient) (op : string)
    (api_params : dict value) (t : list event) (om : OperationModel)
    (rd : dict value) (e : exn) :
  operation_model op = ret om ->
  _convert_to_request_dict api_params om (context_of self om) = ret rd ->
  make_request om (before_call_handlers (before_call_name self op) rd)
    = raise e ->
  api_call self op api_params t
  = (t ++ [Emit (before_call_name self op)
             (BeforeCallArgs om rd (context_of self om));
           MakeRequest om
             (before_call_handlers (before_call_name self op) rd)],
     raise e).
Proof.
  intros H1 H2 H3. unfold api_call, _make_api_call, mbind, lift, log.
  rewrite H1. simpl. unfold context_of in *. rewrite H2. simpl.
  rewrite H3. simpl. rewrite <- !app_assoc. reflexivity.
Qed.

(** C1: when the dispatch of a call completes with an HTTP response, a
    status code of 300 or more makes the call fail with ClientError (the
    ServiceError of the design documents) carrying the parsed body and
    the operation name; otherwise the call returns the parsed body. *)
Theorem api_call_classifies_by_status (self : BaseClient) (op : string)
    (api_params : dict value) (t : list event) (om : OperationModel)
    (rd parsed : dict value) (http : HttpResponse) :
  operation_model op = ret om ->
  _convert_to_request_dict api_params om (context_of self om) = ret rd ->
  make_request om (before_call_handlers (before_call_name self op) rd)
    = ret (http, parsed) ->
  ((300 <= status_code http)%Z ->
     snd (api_call self op api_params t) = raise (ClientError parsed op))
  /\ ((status_code http < 300)%Z ->
        snd (api_call self op api_params t) = ret parsed).
Proof.
  intros H1 H2 H3.
  rewrite (api_call_answered self op api_params t om rd parsed http H1 H2 H3).
  simpl. split; intros Hs.
  - destruct (Z.geb_spec (status_code http) 300); [reflexivity | lia].
  - destruct (Z.geb_spec (status_code http) 300); [lia | reflexivity].
Qed.

(** C2: in a call that reaches its hooks, the before-call hook is
    emitted exactly once and strictly before the one dispatch.  When the
    dispatch brings back a response, whatever its status code, the
    after-call hook is emitted exactly once and strictly after the
    dispatch.  When the dispatch raises, no after-call hook is emitted
    and the call ends with that very fault. *)
Theorem hooks_bracket_dispatch (self : BaseClient) (op : string)
    (api_params : dict value) (om : OperationModel) (rd : dict value) :
  operation_model op = ret om ->
  _convert_to_request_dict api_params om (context_of self om) = ret rd ->
  count is_before_call (emitted (api_call self op api_params)) = 1%nat
  /\ count is_dispatch (emitted (api_call self op api_params)) = 1%nat
  /\ strictly_before is_before_call is_dispatch
       (emitted (api_call self op api_params))
  /\ (forall http parsed,
        make_request om (before_call_handlers (before_call_name self op) rd)
          = ret (http, parsed) ->
        count is_after_call (emitted (api_call self op api_params)) = 1%nat
        /\ strictly_before is_dispatch is_after_call
             (emitted (api_call self op api_params))
        /\ emitted (api_call self op api_params)
           = [Emit (before_call_name self op)
                (BeforeCallArgs om rd (context_of self om));
              MakeRequest om
                (before_call_handlers (before_call_name self op) rd);
              Emit (after_call_name self op)
                (AfterCallArgs http parsed om (context_of self om))])
  /\ (forall e,
        make_request om (before_call_handlers (before_call_name self op) rd)
          = raise e ->
        count is_after_call (emitted (api_call self op api_params)) = 0%nat
        /\ outcome (api_call self op api_params) = raise e)
  /\ (forall t,
        fst (api_call self op api_params t)
        = t ++ emitted (api_call self op api_params)).
Proof.
  intros H1 H2. unfold emitted, outcome.
  destruct (make_request om
              (before_call_handlers (before_call_name self op) rd))
    as [e|[http parsed]] eqn:H3.
  - pose proof (fun t => api_call_faulted self op api_params t om rd e H1 H2 H3)
      as R.
    rewrite (R []). simpl.
    split; [reflexivity|]. split; [reflexivity|].
    split; [exists 0%nat, 1%nat; repeat split; lia|].
    split; [intros ? ? [=]|].
    split; [intros e' [= <-]; split; reflexivity|].
    intros t. now rewrite R.
  - pose proof (fun t =>
        api_call_answered self op api_params t om rd parsed http H1 H2 H3)
      as R.
    rewrite (R []). simpl.
    split; [reflexivity|]. split; [reflexivity|].
    split; [exists 0%nat, 1%nat; repeat split; lia|].
    split.
    { intros http' parsed' [= <- <-].
      split; [reflexivity|].
      split; [exists 1%nat, 2%nat; repeat split; lia | reflexivity]. }
    split; [intros ? [=]|].
    intros t. now rewrite R.
Qed.

End Calls.

Lemma api_call_classifies_by_status_witness :
  Samples.operation_model "GetObject"
    = ret (mkOperationModel "GetObject" false)
  /\ snd (_make_api_call Samples.operation_model
            Samples._convert_to_request_dict Samples.before_call_handlers
            Samples.make_request Samples.storage_client "GetObject"
            [("Bucket", VStr "missing")] [])
     = raise (ClientError [("Error", VStr "NoSuchBucket")] "GetObject").
Proof.
  split; [reflexivity|].
  refine (proj1 (api_call_classifies_by_status
                   Samples.operation_model Samples._convert_to_request_dict
                   Samples.before_call_handlers Samples.make_request
                   Samples.storage_client "GetObject"
                   [("Bucket", VStr "missing")] []
                   (mkOperationModel "GetObject" false)
                   [("url_path", VStr "/GetObject");
                    ("Bucket", VStr "missing")]
                   [("Error", VStr "NoSuchBucket")]
                   (mkHttpResponse 404) eq_refl eq_refl eq_refl) _).
  simpl. lia.
Defined.

(** A response below 300 is returned as it was parsed. *)
Example found_bucket_returns :
  snd (_make_api_call Samples.operation_model
         Samples._convert_to_request_dict Samples.before_call_handlers
         Samples.make_request Samples.storage_client "GetObject"
         [("Bucket", VStr "photos")] [])
  = ret [("Contents", VStr "a.png")].
Proof. reflexivity. Qed.

Lemma hooks_bracket_dispatch_witness :
  Samples.operation_model "GetObject"
    = ret (mkOperationModel "GetObject" false)
  /\ count is_before_call
       (emitted (_make_api_call Samples.operation_model
                   Samples._convert_to_request_dict
                   Samples.before_call_handlers Samples.make_request
                   Samples.storage_client "GetObject"
                   [("Bucket", VStr "offline")])) = 1%nat
  /\ count is_after_call
       (emitted (_make_api_call Samples.operation_model
                   Samples._convert_to_request_dict
                   Samples.before_call_handlers Samples.make_request
                   Samples.storage_client "GetObject"
                   [("Bucket", VStr "offline")])) = 0%nat
  /\ outcome (_make_api_call Samples.operation_model
                Samples._convert_to_request_dict
                Samples.before_call_handlers Samples.make_request
                Samples.storage_client "GetObject"
                [("Bucket", VStr "offline")])
     = raise (TransportFault "connection reset").
Proof.
  split; [reflexivity|].
  destruct (hooks_bracket_dispatch
              Samples.operation_model Samples._convert_to_request_dict
              Samples.before_call_handlers Samples.make_request
              Samples.storage_client "GetObject"
              [("Bucket", VStr "offline")]
              (mkOperationModel "GetObject" false)
              [("url_path", VStr "/GetObject"); ("Bucket", VStr "offline")]
              eq_refl eq_refl)
    as (Hb & _ & _ & _ & Hfault & _).
  split; [exact Hb|].
  exact (Hfault (TransportFault "connection reset") eq_refl).
Defined.

(** The trace of a call that is answered with an error status: both
    hooks are there, around the dispatch, and the request that is sent is
    the one the before-call handlers left. *)
Example missing_bucket_trace :
  emitted (_make_api_call Samples.operation_model
             Samples._convert_to_request_dict Samples.before_call_handlers
             Samples.make_request Samples.storage_client "GetObject"
             [("Bucket", VStr "missing")])
  = [Emit "before-call.s3.GetObject"
       (BeforeCallArgs (mkOperationModel "GetObject" false)
          [("url_path", VStr "/GetObject"); ("Bucket", VStr "missing")]
          (mkRequestContext "us-east-1" Samples.first_config false));
     MakeRequest (mkOperationModel "GetObject" false)
       [("url_path", VStr "/GetObject"); ("Bucket", VStr "missing");
        ("signed", VBool true)];
     Emit "after-call.s3.GetObject"
       (AfterCallArgs (mkHttpResponse 404) [("Error", VStr "NoSuchBucket")]
          (mkOperationModel "GetObject" false)
          (mkRequestContext "us-east-1" Samples.first_config false))].
Proof. reflexivity. Qed.

(** A call for an unknown operation, or with parameters the serializer
    refuses, emits nothing and dispatches nothing. *)
Example no_hooks_without_request :
  _make_api_call Samples.operation_model Samples._convert_to_request_dict
    Samples.before_call_handlers Samples.make_request
    Samples.storage_client "DropTable" [] []
  = ([], raise (OperationNotFoundError "DropTable"))
  /\ _make_api_call Samples.operation_model Samples._convert_to_request_dict
       Samples.before_call_handlers Samples.make_request
       Samples.storage_client "GetObject" [] []
     = ([], raise (ParamValidationError "Missing required parameter: Bucket")).
Proof. split; reflexivity. Qed.

(** *** Client arguments *)

Lemma eqb_lower_ignoring_case (s t : string) :
  String.eqb (lower s) (lower t) = equal_ignoring_case s t.
Proof.
  revert t. induction s as [|a s IH]; intros [|b t]; simpl; try reflexivity.
  unfold same_letter. rewrite IH.
  now destruct (Ascii.eqb (lower_ascii a) (lower_ascii b)).
Qed.

Lemma lower_eqb_false (s : string) :
  String.eqb (lower s) "false" = equal_ignoring_case s "false".
Proof. apply (eqb_lower_ignoring_case s "false"). Qed.

(** C5, as amended: parameter validation is on by default and is off
    exactly when the explicit config's flag switches it off or, failing
    that, the scoped configuration's value reads false in any case.  An
    explicit config takes precedence over the scoped configuration only
    by switching validation off; one whose flag is on leaves the decision
    to the scoped configuration. *)
Theorem parameter_validation_decision
    (client_config : option ClientConfig)
    (scoped_config : option (dict value)) :
  get_parameter_validation client_config scoped_config
  = negb (explicitly_disabled client_config || file_says_false scoped_config)
  /\ get_parameter_validation None None = true
  /\ (forall ua extra ct rt,
        get_parameter_validation
          (Some (mkClientConfig false ua extra ct rt)) scoped_config
        = false)
  /\ (forall ua extra ct rt,
        get_parameter_validation
          (Some (mkClientConfig true ua extra ct rt)) scoped_config
        = get_parameter_validation None scoped_config)
  /\ get_parameter_validation None scoped_config
     = negb (file_says_false scoped_config).
Proof.
  assert (Hfile : get_parameter_validation None scoped_config
                  = negb (file_says_false scoped_config)).
  { unfold get_parameter_validation, file_says_false. simpl.
    destruct scoped_config as [[|[k v] sc]|]; try reflexivity.
    cbn [dict_truthy].
    destruct (dict_get "parameter_validation" ((k, v) :: sc)) as [w|];
      cbn [default from_option id].
    - rewrite lower_eqb_false.
      now destruct (equal_ignoring_case (str w) "false").
    - reflexivity. }
  split; [|repeat (split; [reflexivity|]); exact Hfile].
  destruct client_config as [[[] ua extra ct rt]|]; simpl.
  - exact Hfile.
  - reflexivity.
  - exact Hfile.
Qed.

(** C5 as stated fails: an explicit config that leaves validation on
    does not prevail over a scoped configuration that says false. *)
Lemma explicit_flag_on_yields_to_file :
  get_parameter_validation
    (Some (mkClientConfig true None None VNone VNone))
    (Some [("parameter_validation", VStr "false")])
  = false
  /\ ~ explicit_config_decides.
Proof.
  split; [reflexivity|].
  intros H.
  specialize (H (mkClientConfig true None None VNone VNone)
                (Some [("parameter_validation", VStr "false")])).
  discriminate H.
Qed.

(** The file value is compared without regard to case, and a value other
    than the word false leaves validation on. *)
Example file_values :
  get_parameter_validation None
    (Some [("parameter_validation", VStr "FALSE")]) = false
  /\ get_parameter_validation None
       (Some [("parameter_validation", VStr "False")]) = false
  /\ get_parameter_validation None
       (Some [("parameter_validation", VBool false)]) = false
  /\ get_parameter_validation None
       (Some [("parameter_validation", VStr "no")]) = true
  /\ get_parameter_validation None (Some [("region", VStr "eu")]) = true
  /\ get_parameter_validation None (Some []) = true.
Proof. repeat split; reflexivity. Qed.

(** C8: the effective user agent is the built-in default unless the
    explicit config supplies a user agent, which then replaces it; a
    user-agent-extra suffix of the explicit config is appended after a
    single space, whether or not the base was replaced. *)
Theorem user_agent_effective (default_user_agent : string)
    (pv : bool) (ct rt : value) :
  get_user_agent default_user_agent None = default_user_agent
  /\ get_user_agent default_user_agent
       (Some (mkClientConfig pv None None ct rt)) = default_user_agent
  /\ (forall ua,
        get_user_agent default_user_agent
          (Some (mkClientConfig pv (Some ua) None ct rt)) = ua)
  /\ (forall extra,
        get_user_agent default_user_agent
          (Some (mkClientConfig pv None (Some extra) ct rt))
        = default_user_agent +:+ " " +:+ extra)
  /\ (forall ua extra,
        get_user_agent default_user_agent
          (Some (mkClientConfig pv (Some ua) (Some extra) ct rt))
        = ua +:+ " " +:+ extra)
  /\ (forall client_config endpoint_config scoped_config protocol,
        dict_get "user_agent"
          (config_kwargs (_get_client_args protocol default_user_agent
                            endpoint_config scoped_config client_config))
        = Some (VStr (get_user_agent default_user_agent client_config))).
Proof.
  repeat split; try reflexivity.
  intros [c|] ec sc protocol; reflexivity.
Qed.

Example user_agent_samples :
  get_user_agent "Botocore/1.5" (Some (mkClientConfig true (Some "probe")
                                         (Some "ci/7") VNone VNone))
  = "probe ci/7"
  /\ get_user_agent "Botocore/1.5" (Some (mkClientConfig true None
                                            (Some "ci/7") VNone VNone))
     = "Botocore/1.5 ci/7".
Proof. split; reflexivity. Qed.

(** *** Paginators *)

(** C7: when [can_paginate] answers that the operation has no pagination
    metadata, [get_paginator] raises OperationNotPageableError naming
    the operation and installs nothing; for a pageable operation, one
    with a generated method, an operation name and pagination metadata,
    it returns a paginator for that method and metadata. *)
Theorem get_paginator_pageable_or_raises
    (can_paginate : BaseClient -> string -> BaseClient * result exn bool)
    (self self1 : BaseClient) (cls : page_iterator_cls) (op : string) :
  (can_paginate self op = (self1, ret false) ->
     get_paginator can_paginate self cls op
     = (self1, cls, raise (OperationNotPageableError op)))
  /\ (forall actual pc cfg,
        can_paginate self op = (self1, ret true) ->
        dict_get op (_PY_TO_OP_NAME self1) = Some actual ->
        in_list op (methods self1) = true ->
        page_config self1 = Some pc ->
        dict_get actual pc = Some cfg ->
        get_paginator can_paginate self cls op
        = (self1, AsyncPageIterator, ret (mkPaginator op cfg))).
Proof.
  split.
  - intros H. unfold get_paginator. now rewrite H.
  - intros actual pc cfg H Hname Hmeth Hpc Hcfg.
    unfold get_paginator, getattr_method.
    now rewrite H, Hname, Hmeth, Hpc, Hcfg.
Qed.

Lemma get_paginator_pageable_or_raises_witness :
  Samples.can_paginate Samples.storage_client "get_object"
    = (fst (Samples.can_paginate Samples.storage_client "get_object"),
       ret false)
  /\ get_paginator Samples.can_paginate Samples.storage_client PageIterator
       "get_object"
     = (fst (Samples.can_paginate Samples.storage_client "get_object"),
        PageIterator, raise (OperationNotPageableError "get_object"))
  /\ get_paginator Samples.can_paginate Samples.storage_client PageIterator
       "list_objects"
     = (fst (Samples.can_paginate Samples.storage_client "list_objects"),
        AsyncPageIterator,
        ret (mkPaginator "list_objects" (VStr "Marker"))).
Proof.
  split; [reflexivity|]. split.
  - exact (proj1 (get_paginator_pageable_or_raises Samples.can_paginate
                    Samples.storage_client
                    (fst (Samples.can_paginate Samples.storage_client
                            "get_object"))
                    PageIterator "get_object") eq_refl).
  - exact (proj2 (get_paginator_pageable_or_raises Samples.can_paginate
                    Samples.storage_client
                    (fst (Samples.can_paginate Samples.storage_client
                            "list_objects"))
                    PageIterator "list_objects")
             "ListObjects" [("ListObjects", VStr "Marker")] (VStr "Marker")
             eq_refl eq_refl eq_refl eq_refl eq_refl).
Defined.

End ClientClaims.

(** ** Further properties of the connector configuration *)

Module ConfigProps.

Import Config ConnectorSpec PyTypes PyFacts ConfigFacts.

(** *** Dictionaries *)

Lemma dict_get_In {V : Type} (k : string) (v : V) (d : dict V) :
  dict_get k d = Some v -> List.In (k, v) d.
Proof.
  induction d as [|[k' v'] d IH]; simpl; [discriminate|].
  destruct (String.eqb_spec k k') as [->|Hne].
  - intros [= ->]. now left.
  - intros H. right. auto.
Qed.

Lemma dict_wf_get {V : Type} (k : string) (v : V) (d : dict V) :
  dict_wf d -> List.In (k, v) d -> dict_get k d = Some v.
Proof.
  unfold dict_wf. induction d as [|[k' v'] d IH]; simpl; [tauto|].
  intros Hwf [[= -> ->]|Hin].
  - now rewrite String.eqb_refl.
  - inversion Hwf as [|? ? Hnotin Hwf']; subst.
    destruct (String.eqb_spec k k') as [->|Hne]; [|auto].
    exfalso. apply Hnotin. change k' with (fst (k', v)). now apply in_map.
Qed.

(** Writing the value a key already has changes nothing. *)
Lemma dict_set_same {V : Type} (k : string) (v : V) (d : dict V) :
  dict_get k d = Some v -> dict_set k v d = d.
Proof.
  induction d as [|[k' v'] d IH]; simpl; [discriminate|].
  destruct (String.eqb_spec k k') as [->|Hne].
  - now intros [= ->].
  - intros H. now rewrite IH.
Qed.

(** The keys after a write: the same, or one more at the end. *)
Lemma dict_set_keys {V : Type} (k : string) (v : V) (d : dict V) :
  map fst (dict_set k v d)
  = if dict_contains k d then map fst d else map fst d ++ [k].
Proof.
  unfold dict_contains. induction d as [|[k' v'] d IH]; simpl; [reflexivity|].
  destruct (String.eqb_spec k k') as [->|Hne]; simpl; [reflexivity|].
  rewrite IH. now destruct (dict_get k d).
Qed.

Lemma dict_set_wf {V : Type} (k : string) (v : V) (d : dict V) :
  dict_wf d -> dict_wf (dict_set k v d).
Proof.
  unfold dict_wf. rewrite dict_set_keys. intros Hwf.
  destruct (dict_contains k d) eqn:E; [exact Hwf|].
  apply NoDup_ListNoDup. apply NoDup_app. repeat split.
  - now apply NoDup_ListNoDup.
  - intros x Hx Hk. apply list_elem_of_In in Hx.
    apply list_elem_of_In in Hk. destruct Hk as [<-|[]].
    unfold dict_contains in E.
    destruct (dict_get k d) eqn:G; [discriminate|].
    now apply dict_get_None_not_in in G.
  - apply NoDup_singleton.
Qed.

Lemma dict_update_wf {V : Type} (d other : dict V) :
  dict_wf d -> dict_wf (dict_update d other).
Proof.
  unfold dict_update. revert d.
  induction other as [|[k v] other IH]; simpl; intros d Hwf; [exact Hwf|].
  apply IH. now apply dict_set_wf.
Qed.

Lemma dict_update_same {V : Type} (d other : dict V) :
  (forall k v, List.In (k, v) other -> dict_get k d = Some v) ->
  dict_update d other = d.
Proof.
  unfold dict_update.
  induction other as [|[k v] other IH]; simpl; intros H; [reflexivity|].
  rewrite (dict_set_same k v d) by (apply H; now left).
  apply IH. intros k' v' Hin. apply H. now right.
Qed.

(** *** The validator *)

Lemma validate_given (h : heap) (arg : option ref) :
  _validate_connector_args (option_map (load h) arg)
  = validate_items (given h arg).
Proof. destruct arg; reflexivity. Qed.

(** Whatever the validator raises is a ParamValidationError. *)
Lemma validate_items_raises (d : dict value) (e : exn) :
  validate_items d = raise e ->
  exists k v msg,
    find offending_entry d = Some (k, v)
    /\ e = ParamValidationError msg /\ report_shape msg k.
Proof.
  intros H. pose proof (validate_items_first d) as F.
  destruct (find offending_entry d) as [[k v]|] eqn:Ef.
  - apply find_some in Ef as [_ Hoff].
    unfold offending_entry in Hoff; simpl in Hoff.
    destruct (check_connector_arg_bad k v Hoff) as (msg & Hm & Hs).
    exists k, v, msg. rewrite F, Hm in H. injection H as <-. auto.
  - rewrite F in H. discriminate.
Qed.

Lemma offending_None (k : string) : offending k VNone = true.
Proof.
  unfold offending, recognized, well_typed, recognized_keys, in_list.
  simpl. all_keys k; reflexivity.
Qed.

Lemma offending_str (k s : string) : offending k (VStr s) = true.
Proof.
  unfold offending, recognized, well_typed, recognized_keys, in_list.
  simpl. all_keys k; reflexivity.
Qed.

(** X1: without connector options, or with an empty mapping, the config
    gets exactly the keep-alive default, in an object of its own; an
    empty mapping passed in stays empty. *)
Theorem init_without_connector_args
    (option_accepted : string -> value -> bool)
    (h : heap) (kwargs opts : dict value) :
  Config_init option_accepted kwargs = ret opts ->
  (exists h' c,
     AsyncConfig_init option_accepted h None kwargs = (h', ret c)
     /\ load h' (connector_args c) = [("keepalive_timeout", VInt 12)]
     /\ (length h <= connector_args c)%nat)
  /\ (forall r, h !! r = Some [] ->
        exists h' c,
          AsyncConfig_init option_accepted h (Some r) kwargs = (h', ret c)
          /\ load h' (connector_args c) = [("keepalive_timeout", VInt 12)]
          /\ h' !! r = Some []
          /\ connector_args c <> r).
Proof.
  intros Hc. split.
  - destruct (AsyncConfig_init_returns option_accepted h None kwargs opts
                Hc eq_refl) as (h' & r' & Hi & Hb & Hl & _).
    exists h', (mkAsyncConfig opts r'). simpl. repeat split; auto. lia.
  - intros r Hr.
    destruct (AsyncConfig_init_returns option_accepted h (Some r) kwargs opts
                Hc) as (h' & r' & Hi & Hb & Hl & Hf).
    { simpl. now rewrite (load_lookup _ _ _ Hr). }
    exists h', (mkAsyncConfig opts r'). simpl.
    simpl in Hl. rewrite (load_lookup _ _ _ Hr) in Hl.
    repeat split; auto.
    apply lookup_lt_Some in Hr. lia.
Qed.

(** X2: a construction that raises leaves the store exactly as it was,
    and it raises for one of two reasons only: the base class refused the
    keywords, or it took them and the validator then rejected the
    connector options.  The base class is asked first. *)
Theorem failed_init_changes_nothing
    (option_accepted : string -> value -> bool)
    (h : heap) (arg : option ref) (kwargs : dict value) (e : exn) :
  snd (AsyncConfig_init option_accepted h arg kwargs) = raise e ->
  fst (AsyncConfig_init option_accepted h arg kwargs) = h
  /\ (Config_init option_accepted kwargs = raise e
      \/ (Config_init option_accepted kwargs = ret kwargs
          /\ validate_items (given h arg) = raise e)).
Proof.
  unfold AsyncConfig_init. rewrite validate_given.
  destruct (Config_init option_accepted kwargs) as [e0|opts] eqn:Hc.
  - simpl. intros [= ->]. auto.
  - destruct (Config_init_ret_inv _ _ _ Hc) as [-> _].
    destruct (validate_items (given h arg)) as [e0|[]] eqn:Hv.
    + simpl. intros [= ->]. auto.
    + destruct (copy_or_new h arg) as [h1 r1]. simpl. discriminate.
Qed.

(** What a returned config tells about the call that made it. *)
Lemma AsyncConfig_init_inv
    (option_accepted : string -> value -> bool)
    (h h' : heap) (arg : option ref) (kwargs : dict value)
    (c : AsyncConfig) :
  AsyncConfig_init option_accepted h arg kwargs = (h', ret c) ->
  _user_provided_options c = kwargs
  /\ (forall k v, List.In (k, v) kwargs -> option_accepted k v = true)
  /\ validate_items (given h arg) = ret tt
  /\ (length h <= connector_args c < length h')%nat
  /\ load h' (connector_args c) = with_keepalive_default (given h arg).
Proof.
  intros H.
  destruct (Config_init option_accepted kwargs) as [e0|opts] eqn:Hc.
  { unfold AsyncConfig_init in H. rewrite Hc in H. discriminate. }
  destruct (Config_init_ret_inv _ _ _ Hc) as [-> Hacc].
  destruct (validate_items (given h arg)) as [e0|[]] eqn:Hv.
  { unfold AsyncConfig_init in H. rewrite Hc, validate_given, Hv in H.
    discriminate. }
  destruct (AsyncConfig_init_returns option_accepted h arg kwargs kwargs
              Hc Hv) as (h1 & r1 & Hi & Hb & Hl & _).
  rewrite Hi in H. injection H as <- <-. simpl. auto.
Qed.

Lemma live_load (h : heap) (r : ref) :
  (r < length h)%nat -> h !! r = Some (load h r).
Proof.
  intros Hlt. unfold load. destruct (h !! r) as [d|] eqn:E; [reflexivity|].
  apply lookup_ge_None in E. lia.
Qed.

(** X3: every config the constructor returns records the keywords as
    given, and its connector options live in an object that did not exist
    before, pass the validator and hold a keep-alive value. *)
Theorem init_result_is_valid
    (option_accepted : string -> value -> bool)
    (h h' : heap) (arg : option ref) (kwargs : dict value)
    (c : AsyncConfig) :
  AsyncConfig_init option_accepted h arg kwargs = (h', ret c) ->
  _user_provided_options c = kwargs
  /\ (length h <= connector_args c < length h')%nat
  /\ validate_items (load h' (connector_args c)) = ret tt
  /\ dict_contains "keepalive_timeout" (load h' (connector_args c)) = true
  /\ built option_accepted h' c.
Proof.
  intros H.
  destruct (AsyncConfig_init_inv option_accepted h h' arg kwargs c H)
    as (Ho & Hacc & Hv & Hb & Hl).
  assert (Hval : validate_items (load h' (connector_args c)) = ret tt).
  { rewrite Hl. now apply ConfigClaims.with_keepalive_default_valid. }
  assert (Hka : dict_contains "keepalive_timeout"
                  (load h' (connector_args c)) = true).
  { rewrite Hl. apply ConfigClaims.with_keepalive_default_contains. }
  repeat split; auto; try lia.
  exists (load h' (connector_args c)). rewrite Ho.
  repeat split; auto. apply live_load. lia.
Qed.

(** A config stays built when the store only grows. *)
Lemma built_frame (option_accepted : string -> value -> bool)
    (h h' : heap) (c : AsyncConfig) :
  built option_accepted h c ->
  (forall r0 d0, h !! r0 = Some d0 -> h' !! r0 = Some d0) ->
  built option_accepted h' c.
Proof.
  intros (d & Hr & Hrest) Hf. exists d. split; [now apply Hf | exact Hrest].
Qed.

(** X4: constructing a config from the connector options of a config
    that was itself constructed gives a new object with the same
    options; the options passed in stay where they were. *)
Theorem init_from_built_copies
    (option_accepted : string -> value -> bool)
    (h : heap) (c : AsyncConfig) (kwargs opts : dict value) :
  built option_accepted h c ->
  Config_init option_accepted kwargs = ret opts ->
  exists h' c',
    AsyncConfig_init option_accepted h (Some (connector_args c)) kwargs
    = (h', ret c')
    /\ load h' (connector_args c') = load h (connector_args c)
    /\ connector_args c' <> connector_args c
    /\ h' !! connector_args c = h !! connector_args c.
Proof.
  intros (d & Hr & Hv & Hk & _) Hc.
  destruct (AsyncConfig_init_returns option_accepted h
              (Some (connector_args c)) kwargs opts Hc)
    as (h' & r' & Hi & Hb & Hl & Hf).
  { simpl. now rewrite (load_lookup _ _ _ Hr). }
  exists h', (mkAsyncConfig opts r'). simpl.
  simpl in Hl. unfold with_keepalive_default in Hl.
  rewrite (load_lookup _ _ _ Hr) in *. rewrite Hk in Hl.
  repeat split; auto.
  - apply lookup_lt_Some in Hr. lia.
  - rewrite Hr. now apply Hf.
Qed.

(** X5: whether the validator accepts a mapping does not depend on the
    order of its entries. *)
Theorem validation_ignores_order (d d' : dict value) :
  Permutation d d' ->
  (validate_items d = ret tt <-> validate_items d' = ret tt).
Proof.
  intros Hp. rewrite !validate_items_ok_iff. split; intros H k v Hin.
  - apply H. eapply Permutation_in; [apply Permutation_sym|]; eassumption.
  - apply H. eapply Permutation_in; eassumption.
Qed.

(** The report, however, is the one of whichever offending entry comes
    first. *)
Example report_follows_order :
  validate_items [("limt", VInt 1); ("force_close", VInt 0)]
  = raise (ParamValidationError "invalid connector_arg:limt")
  /\ validate_items [("force_close", VInt 0); ("limt", VInt 1)]
     = raise (ParamValidationError "force_close value must be a boolean").
Proof. split; reflexivity. Qed.

(** X6: no option, recognized or not, can be bound to None or to a
    string: a mapping with such an entry is rejected with a
    ParamValidationError. *)
Theorem none_and_strings_rejected (d : dict value) (k : string) (v : value) :
  List.In (k, v) d ->
  v = VNone \/ (exists s, v = VStr s) ->
  exists msg, validate_items d = raise (ParamValidationError msg).
Proof.
  intros Hin Hv.
  assert (Hoff : offending k v = true).
  { destruct Hv as [->|[s ->]]; [apply offending_None | apply offending_str]. }
  destruct (validate_items d) as [e|[]] eqn:E.
  - destruct (validate_items_raises d e E) as (_ & _ & msg & _ & -> & _).
    now exists msg.
  - rewrite (proj1 (validate_items_ok_iff d) E k v Hin) in Hoff. discriminate.
Qed.

(** X7: the verdict on an entry, report included, depends on the key and
    on the type of the value only; the value itself is never looked at,
    so no range is checked. *)
Theorem check_depends_on_type_only (k : string) (v v' : value) :
  type_of v = type_of v' ->
  check_connector_arg k v = check_connector_arg k v'.
Proof.
  intros H. destruct v, v'; simpl in H; try discriminate H; try reflexivity.
  injection H as ->. reflexivity.
Qed.

(** X8: validating two mappings laid end to end stops at the first
    error of the first one; the second is looked at only if the first
    passes. *)
Theorem validate_items_app (d1 d2 : dict value) :
  validate_items (d1 ++ d2)
  = match validate_items d1 with
    | inl e => raise e
    | inr _ => validate_items d2
    end.
Proof.
  induction d1 as [|[k v] d1 IH]; simpl; [reflexivity|].
  destruct (check_connector_arg k v) as [e|[]]; [reflexivity | exact IH].
Qed.

(** *** Merging *)

Section Merge.

Variable option_accepted : string -> value -> bool.

(** A merge of a built config with a config whose options the base class
    takes returns a built config. *)
Lemma merge_returns (h : heap) (A B : AsyncConfig) :
  built option_accepted h A ->
  (forall k v, List.In (k, v) (_user_provided_options B) ->
     option_accepted k v = true) ->
  exists h' r',
    merge option_accepted h A B
    = (h', ret (mkAsyncConfig
                  (dict_update (_user_provided_options A)
                               (_user_provided_options B)) r'))
    /\ load h' r' = load h (connector_args A)
    /\ (length h <= r' < length h')%nat
    /\ (forall r0 d0, h !! r0 = Some d0 -> h' !! r0 = Some d0)
    /\ built option_accepted h'
         (mkAsyncConfig
            (dict_update (_user_provided_options A)
                         (_user_provided_options B)) r').
Proof.
  intros (d & Hr & Hv & Hk & HaccA) HaccB.
  set (opts := dict_update (_user_provided_options A)
                           (_user_provided_options B)).
  assert (Hacc : forall k v, List.In (k, v) opts ->
                             option_accepted k v = true).
  { intros k v Hin. apply dict_update_In in Hin as [Hin|Hin]; auto. }
  pose proof (Config_init_accepts option_accepted opts Hacc) as Hc.
  destruct (AsyncConfig_init_returns option_accepted h
              (Some (connector_args A)) opts opts Hc)
    as (h' & r' & Hi & Hb & Hl & Hf).
  { simpl. now rewrite (load_lookup _ _ _ Hr). }
  simpl in Hl. unfold with_keepalive_default in Hl.
  rewrite (load_lookup _ _ _ Hr) in *. rewrite Hk in Hl.
  exists h', r'. unfold merge. fold opts.
  split; [exact Hi|]. split; [exact Hl|]. split; [lia|].
  split; [exact Hf|].
  exists d. simpl. repeat split; auto.
  rewrite <- Hl. apply live_load. lia.
Qed.

(** X9: merging with a config that set no option returns a copy of the
    first config, and so does merging a config with itself. *)
Theorem merge_identity_and_idempotent (h : heap) (A : AsyncConfig) :
  built option_accepted h A ->
  (forall rB,
     exists h' C,
       merge option_accepted h A (mkAsyncConfig [] rB) = (h', ret C)
       /\ _user_provided_options C = _user_provided_options A
       /\ load h' (connector_args C) = load h (connector_args A))
  /\ (dict_wf (_user_provided_options A) ->
      exists h' C,
        merge option_accepted h A A = (h', ret C)
        /\ _user_provided_options C = _user_provided_options A
        /\ load h' (connector_args C) = load h (connector_args A)
        /\ connector_args C <> connector_args A).
Proof.
  intros HA. pose proof HA as (d & Hr & _ & _ & HaccA). split.
  - intros rB.
    destruct (merge_returns h A (mkAsyncConfig [] rB) HA)
      as (h' & r' & Hm & Hl & _); [intros k v []|].
    exists h', (mkAsyncConfig (_user_provided_options A) r').
    repeat split; auto.
  - intros Hwf.
    destruct (merge_returns h A A HA HaccA) as (h' & r' & Hm & Hl & Hb & _).
    eexists h', _. split; [exact Hm|]. simpl.
    repeat split; auto.
    + apply dict_update_same. intros k v Hin. now apply dict_wf_get.
    + apply lookup_lt_Some in Hr. lia.
Qed.

(** X10: merging is associative in what can be observed: merging A with
    B and the result with C gives the same option lookups and the same
    connector options, those of A, as merging A with the merge of B and
    C. *)
Theorem merge_associative (h : heap) (A B C : AsyncConfig) :
  built option_accepted h A ->
  built option_accepted h B ->
  (forall k v, List.In (k, v) (_user_provided_options C) ->
     option_accepted k v = true) ->
  dict_wf (_user_provided_options B) ->
  dict_wf (_user_provided_options C) ->
  exists h1 AB h2 L h1' BC h2' R,
    merge option_accepted h A B = (h1, ret AB)
    /\ merge option_accepted h1 AB C = (h2, ret L)
    /\ merge option_accepted h B C = (h1', ret BC)
    /\ merge option_accepted h1' A BC = (h2', ret R)
    /\ (forall k,
          dict_get k (_user_provided_options L)
          = dict_get k (_user_provided_options R))
    /\ load h2 (connector_args L) = load h (connector_args A)
    /\ load h2' (connector_args R) = load h (connector_args A).
Proof.
  intros HA HB HaccC HwfB HwfC.
  pose proof HA as (dA & HrA & _ & _ & HaccA).
  pose proof HB as (dB & HrB & _ & _ & HaccB).
  destruct (merge_returns h A B HA HaccB)
    as (h1 & r1 & Hm1 & Hl1 & Hb1 & Hf1 & HAB).
  set (AB := mkAsyncConfig
               (dict_update (_user_provided_options A)
                            (_user_provided_options B)) r1) in *.
  destruct (merge_returns h1 AB C HAB HaccC)
    as (h2 & r2 & Hm2 & Hl2 & _ & _).
  destruct (merge_returns h B C HB HaccC)
    as (h1' & r1' & Hm1' & Hl1' & Hb1' & Hf1' & _).
  set (BC := mkAsyncConfig
               (dict_update (_user_provided_options B)
                            (_user_provided_options C)) r1') in *.
  assert (HaccBC : forall k v, List.In (k, v) (_user_provided_options BC) ->
                               option_accepted k v = true).
  { intros k v Hin. apply dict_update_In in Hin as [Hin|Hin]; auto. }
  destruct (merge_returns h1' A BC (built_frame _ _ _ _ HA Hf1') HaccBC)
    as (h2' & r2' & Hm2' & Hl2' & _ & _).
  do 8 eexists.
  split; [exact Hm1|]. split; [exact Hm2|].
  split; [exact Hm1'|]. split; [exact Hm2'|].
  simpl. split; [|split].
  - intros k.
    rewrite (dict_get_update k _ _ HwfC), (dict_get_update k _ _ HwfB).
    rewrite (dict_get_update k (_user_provided_options A)
               (dict_update (_user_provided_options B)
                            (_user_provided_options C)))
      by now apply dict_update_wf.
    rewrite (dict_get_update k _ _ HwfC).
    now destruct (dict_get k (_user_provided_options C)).
  - rewrite Hl2. simpl. exact Hl1.
  - rewrite Hl2'. unfold load. destruct (h !! connector_args A) as [d|] eqn:E.
    + now rewrite (Hf1' _ _ E).
    + rewrite HrA in E. discriminate.
Qed.

End Merge.

(** *** The properties at the sample inputs *)

Lemma sample_accepted (kwargs : dict value) :
  Config_init Samples.option_accepted kwargs = ret kwargs ->
  forall k v, List.In (k, v) kwargs -> Samples.option_accepted k v = true.
Proof. intros H. now apply (Config_init_ret_inv _ _ _ H). Qed.

Lemma sample_first_built :
  built Samples.option_accepted Samples.store_after_both Samples.first_config.
Proof.
  exists [("limit", VInt 10); ("keepalive_timeout", VInt 12)].
  repeat split; try reflexivity. now apply sample_accepted.
Qed.

Lemma sample_second_built :
  built Samples.option_accepted Samples.store_after_both Samples.second_config.
Proof.
  exists [("limit", VInt 20); ("keepalive_timeout", VInt 12)].
  repeat split; try reflexivity. now apply sample_accepted.
Qed.

Lemma init_without_connector_args_witness :
  Config_init Samples.option_accepted Samples.first_kwargs
    = ret Samples.first_kwargs
  /\ exists h' c,
       AsyncConfig_init Samples.option_accepted [[]] (Some 0%nat)
         Samples.first_kwargs = (h', ret c)
       /\ load h' (connector_args c) = [("keepalive_timeout", VInt 12)]
       /\ h' !! 0%nat = Some []
       /\ connector_args c <> 0%nat.
Proof.
  split; [reflexivity|].
  exact (proj2 (init_without_connector_args Samples.option_accepted [[]]
                  Samples.first_kwargs Samples.first_kwargs eq_refl)
           0%nat eq_refl).
Defined.

Lemma failed_init_changes_nothing_witness :
  snd (AsyncConfig_init Samples.option_accepted [Samples.typo] (Some 0%nat)
         MoreSamples.bad_kwargs)
    = raise (TypeError "Got unexpected keyword argument 'retries'")
  /\ fst (AsyncConfig_init Samples.option_accepted [Samples.typo]
            (Some 0%nat) MoreSamples.bad_kwargs) = [Samples.typo].
Proof.
  split; [reflexivity|].
  exact (proj1 (failed_init_changes_nothing Samples.option_accepted
                  [Samples.typo] (Some 0%nat) MoreSamples.bad_kwargs
                  (TypeError "Got unexpected keyword argument 'retries'")
                  eq_refl)).
Defined.

Lemma init_result_is_valid_witness :
  AsyncConfig_init Samples.option_accepted [Samples.tuned] (Some 0%nat)
    Samples.first_kwargs
  = ([Samples.tuned; Samples.tuned ++ [("keepalive_timeout", VInt 12)]],
     ret (mkAsyncConfig Samples.first_kwargs 1))
  /\ validate_items
       (load [Samples.tuned;
              Samples.tuned ++ [("keepalive_timeout", VInt 12)]] 1%nat)
     = ret tt.
Proof.
  split; [reflexivity|].
  exact (proj1 (proj2 (proj2
    (init_result_is_valid Samples.option_accepted [Samples.tuned]
       [Samples.tuned; Samples.tuned ++ [("keepalive_timeout", VInt 12)]]
       (Some 0%nat) Samples.first_kwargs
       (mkAsyncConfig Samples.first_kwargs 1) eq_refl)))).
Defined.

Lemma init_from_built_copies_witness :
  built Samples.option_accepted Samples.store_after_both Samples.first_config
  /\ exists h' c',
       AsyncConfig_init Samples.option_accepted Samples.store_after_both
         (Some (connector_args Samples.first_config)) []
       = (h', ret c')
       /\ load h' (connector_args c')
          = [("limit", VInt 10); ("keepalive_timeout", VInt 12)].
Proof.
  split; [exact sample_first_built|].
  destruct (init_from_built_copies Samples.option_accepted
              Samples.store_after_both Samples.first_config [] []
              sample_first_built eq_refl)
    as (h' & c' & Hi & Hl & _).
  exists h', c'. split; [exact Hi|]. rewrite Hl. reflexivity.
Defined.

Lemma validation_ignores_order_witness :
  Permutation Samples.tuned MoreSamples.tuned_reversed
  /\ validate_items MoreSamples.tuned_reversed = ret tt.
Proof.
  assert (Hp : Permutation Samples.tuned MoreSamples.tuned_reversed)
    by apply perm_swap.
  split; [exact Hp|].
  exact (proj1 (validation_ignores_order Samples.tuned
                  MoreSamples.tuned_reversed Hp) eq_refl).
Defined.

Lemma none_and_strings_rejected_witness :
  List.In ("ssl_context", VNone) MoreSamples.with_none
  /\ exists msg,
       validate_items MoreSamples.with_none
       = raise (ParamValidationError msg).
Proof.
  assert (Hin : List.In ("ssl_context", VNone) MoreSamples.with_none)
    by (simpl; tauto).
  split; [exact Hin|].
  exact (none_and_strings_rejected MoreSamples.with_none "ssl_context" VNone
           Hin (or_introl eq_refl)).
Defined.

Lemma check_depends_on_type_only_witness :
  type_of (VInt 0) = type_of (VInt (-5))
  /\ check_connector_arg "limit" (VInt 0)
     = check_connector_arg "limit" (VInt (-5)).
Proof.
  split; [reflexivity|].
  exact (check_depends_on_type_only "limit" (VInt 0) (VInt (-5)) eq_refl).
Defined.

Lemma merge_identity_and_idempotent_witness :
  built Samples.option_accepted Samples.store_after_both Samples.first_config
  /\ exists h' C,
       merge Samples.option_accepted Samples.store_after_both
         Samples.first_config MoreSamples.plain_config = (h', ret C)
       /\ _user_provided_options C = Samples.first_kwargs
       /\ load h' (connector_args C)
          = [("limit", VInt 10); ("keepalive_timeout", VInt 12)].
Proof.
  split; [exact sample_first_built|].
  destruct (proj1 (merge_identity_and_idempotent Samples.option_accepted
                     Samples.store_after_both Samples.first_config
                     sample_first_built) 3%nat)
    as (h' & C & Hm & Ho & Hl).
  exists h', C. split; [exact Hm|]. split; [exact Ho|].
  rewrite Hl. reflexivity.
Defined.

Lemma merge_associative_witness :
  built Samples.option_accepted Samples.store_after_both Samples.first_config
  /\ built Samples.option_accepted Samples.store_after_both
       Samples.second_config
  /\ exists h1 AB h2 L h1' BC h2' R,
       merge Samples.option_accepted Samples.store_after_both
         Samples.first_config Samples.second_config = (h1, ret AB)
       /\ merge Samples.option_accepted h1 AB MoreSamples.third_config
          = (h2, ret L)
       /\ merge Samples.option_accepted Samples.store_after_both
            Samples.second_config MoreSamples.third_config = (h1', ret BC)
       /\ merge Samples.option_accepted h1' Samples.first_config BC
          = (h2', ret R)
       /\ dict_get "user_agent" (_user_provided_options L)
          = dict_get "user_agent" (_user_provided_options R).
Proof.
  split; [exact sample_first_built|]. split; [exact sample_second_built|].
  destruct (merge_associative Samples.option_accepted
              Samples.store_after_both Samples.first_config
              Samples.second_config MoreSamples.third_config
              sample_first_built sample_second_built)
    as (h1 & AB & h2 & L & h1' & BC & h2' & R & H1 & H2 & H3 & H4 & Hg & _).
  - now apply sample_accepted.
  - unfold dict_wf. simpl. repeat constructor; simpl; intuition discriminate.
  - unfold dict_wf. simpl. repeat constructor; simpl; intuition discriminate.
  - exists h1, AB, h2, L, h1', BC, h2', R. repeat split; auto.
Defined.

End ConfigProps.

(** ** Further properties of the client factory and the bound client *)

Module ClientProps.

Import Client ClientSpec.

Section Calls.

Variable operation_model : string -> result exn OperationModel.
Variable _convert_to_request_dict :
  dict value -> OperationModel -> RequestContext -> result exn (dict value).
Variable before_call_handlers : string -> dict value -> dict value.
Variable make_request :
  OperationModel -> dict value -> result exn (HttpResponse * dict value).

Let api_call := _make_api_call operation_model _convert_to_request_dict
                  before_call_handlers make_request.

(** No event name is that of a before-call and of an after-call hook. *)
Lemma hook_names_exclusive (name : string) :
  startswith "before-call." name && startswith "after-call." name = false.
Proof.
  destruct name as [|c name]; [reflexivity|].
  cbn [startswith].
  destruct (Ascii.eqb_spec "b"%char c) as [<-|Hne]; [|reflexivity].
  change (Ascii.eqb "a" "b") with false.
  cbn [andb]. apply andb_false_r.
Qed.

(** The ways a call can go, by what its collaborators answer. *)
Lemma api_call_cases (self : BaseClient) (op : string)
    (api_params : dict value) :
  (exists e, forall t, api_call self op api_params t = (t, raise e))
  \/ (exists b d e,
        is_before_call b = true /\ is_dispatch d = true
        /\ forall t, api_call self op api_params t = (t ++ [b; d], raise e))
  \/ (exists b d a http parsed,
        is_before_call b = true /\ is_dispatch d = true
        /\ is_after_call a = true
        /\ forall t,
             api_call self op api_params t
             = (t ++ [b; d; a],
                if (status_code http >=? 300)%Z
                then raise (ClientError parsed op)
                else ret parsed)).
Proof.
  destruct (operation_model op) as [e|om] eqn:H1.
  { left. exists e. intros t.
    now apply ClientClaims.api_call_unresolved. }
  destruct (_convert_to_request_dict api_params om (context_of self om))
    as [e|rd] eqn:H2.
  { left. exists e. intros t.
    now apply (ClientClaims.api_call_unserialized _ _ _ _ _ _ _ _ om). }
  destruct (make_request om
              (before_call_handlers (before_call_name self op) rd))
    as [e|[http parsed]] eqn:H3.
  - right. left.
    exists (Emit (before_call_name self op)
              (BeforeCallArgs om rd (context_of self om))),
           (MakeRequest om
              (before_call_handlers (before_call_name self op) rd)), e.
    split; [reflexivity|]. split; [reflexivity|]. intros t.
    exact (ClientClaims.api_call_faulted operation_model
               _convert_to_request_dict before_call_handlers make_request
               self op api_params t
             om rd e H1 H2 H3).
  - right. right.
    exists (Emit (before_call_name self op)
              (BeforeCallArgs om rd (context_of self om))),
           (MakeRequest om
              (before_call_handlers (before_call_name self op) rd)),
           (Emit (after_call_name self op)
              (AfterCallArgs http parsed om (context_of self om))),
           http, parsed.
    split; [reflexivity|]. split; [reflexivity|]. split; [reflexivity|].
    intros t.
    exact (ClientClaims.api_call_answered operation_model
               _convert_to_request_dict before_call_handlers make_request
               self op api_params t
             om rd parsed http H1 H2 H3).
Qed.

(** X12: whatever its collaborators answer, a call dispatches at most
    once: nothing is retried, neither after an error status nor after a
    fault.  Its trace is empty, or a before-call hook and a dispatch, or
    these two and an after-call hook; there is never an after-call hook
    without a dispatch nor a dispatch without a before-call hook. *)
Theorem api_call_dispatches_at_most_once (self : BaseClient) (op : string)
    (api_params : dict value) :
  (emitted (api_call self op api_params) = []
   \/ (exists b d,
         emitted (api_call self op api_params) = [b; d]
         /\ is_before_call b = true /\ is_dispatch d = true)
   \/ (exists b d a,
         emitted (api_call self op api_params) = [b; d; a]
         /\ is_before_call b = true /\ is_dispatch d = true
         /\ is_after_call a = true))
  /\ (count is_dispatch (emitted (api_call self op api_params)) <= 1)%nat
  /\ (count is_after_call (emitted (api_call self op api_params))
      <= count is_dispatch (emitted (api_call self op api_params)))%nat
  /\ (count is_dispatch (emitted (api_call self op api_params))
      <= count is_before_call (emitted (api_call self op api_params)))%nat
  /\ (count is_before_call (emitted (api_call self op api_params)) <= 1)%nat.
Proof.
  unfold emitted.
  destruct (api_call_cases self op api_params)
    as [(e & R) | [(b & d & e & Hb & Hd & R)
                  | (b & d & a & http & parsed & Hb & Hd & Ha & R)]];
    rewrite (R []); cbn [fst app].
  - split; [now left|]. unfold count. simpl. lia.
  - split; [right; left; now exists b, d|].
    destruct b as [nb kb|]; [|discriminate Hb].
    destruct d as [|md rd]; [discriminate Hd|].
    unfold count.
    cbn [is_before_call is_after_call is_dispatch List.filter] in *.
    rewrite Hb.
    destruct (startswith "after-call." nb); cbn [length]; lia.
  - split; [right; right; now exists b, d, a|].
    destruct b as [nb kb|]; [|discriminate Hb].
    destruct d as [|md rd]; [discriminate Hd|].
    destruct a as [na ka|]; [|discriminate Ha].
    unfold count.
    cbn [is_before_call is_after_call is_dispatch List.filter] in *.
    rewrite Hb, Ha.
    pose proof (hook_names_exclusive nb) as Eb.
    pose proof (hook_names_exclusive na) as Ea.
    rewrite Hb in Eb. rewrite Ha in Ea.
    destruct (startswith "after-call." nb); [discriminate Eb|].
    destruct (startswith "before-call." na); [discriminate Ea|].
    cbn [length]. lia.
Qed.

(** X13: a call returns a body only if its operation resolved, its
    parameters serialized and the dispatch of the request the handlers
    left brought back that body with a status code below 300; the
    after-call hook has then been emitted. *)
Theorem api_call_returns_only_on_success (self : BaseClient) (op : string)
    (api_params body : dict value) :
  outcome (api_call self op api_params) = ret body ->
  exists om rd http,
    operation_model op = ret om
    /\ _convert_to_request_dict api_params om (context_of self om) = ret rd
    /\ make_request om (before_call_handlers (before_call_name self op) rd)
       = ret (http, body)
    /\ (status_code http < 300)%Z
    /\ count is_after_call (emitted (api_call self op api_params)) = 1%nat.
Proof.
  unfold outcome, emitted, api_call. intros H.
  destruct (operation_model op) as [e|om] eqn:H1.
  { rewrite (ClientClaims.api_call_unresolved operation_model
               _convert_to_request_dict before_call_handlers make_request
               self op api_params []
               e H1) in H. discriminate H. }
  destruct (_convert_to_request_dict api_params om (context_of self om))
    as [e|rd] eqn:H2.
  { rewrite (ClientClaims.api_call_unserialized operation_model
               _convert_to_request_dict before_call_handlers make_request
               self op api_params []
               om e H1 H2) in H. discriminate H. }
  destruct (make_request om
              (before_call_handlers (before_call_name self op) rd))
    as [e|[http parsed]] eqn:H3.
  { rewrite (ClientClaims.api_call_faulted operation_model
               _convert_to_request_dict before_call_handlers make_request
               self op api_params []
               om rd e H1 H2 H3) in H. discriminate H. }
  pose proof (ClientClaims.api_call_answered operation_model
               _convert_to_request_dict before_call_handlers make_request
               self op api_params []
                om rd parsed http H1 H2 H3) as R.
  rewrite R in *. cbn [fst snd app] in *.
  destruct (Z.geb_spec (status_code http) 300) as [Hge|Hlt];
    [discriminate H|].
  injection H as <-.
  exists om, rd, http. repeat split; auto.
Qed.

(** X14: when the operation is unknown, or the serializer refuses the
    parameters, the call raises that very error and does nothing else:
    no hook is emitted, nothing is dispatched, the log stays as it was. *)
Theorem api_call_fails_early (self : BaseClient) (op : string)
    (api_params : dict value) (e : exn) :
  operation_model op = raise e
  \/ (exists om,
        operation_model op = ret om
        /\ _convert_to_request_dict api_params om (context_of self om)
           = raise e) ->
  (forall t, api_call self op api_params t = (t, raise e))
  /\ emitted (api_call self op api_params) = []
  /\ count is_dispatch (emitted (api_call self op api_params)) = 0%nat.
Proof.
  intros H.
  assert (R : forall t, api_call self op api_params t = (t, raise e)).
  { intros t. destruct H as [H1|(om & H1 & H2)].
    - now apply ClientClaims.api_call_unresolved.
    - now apply (ClientClaims.api_call_unserialized operation_model
               _convert_to_request_dict before_call_handlers make_request
               self op
                   api_params t om e). }
  split; [exact R|]. unfold emitted. rewrite (R []). split; reflexivity.
Qed.

End Calls.

Lemma api_call_returns_only_on_success_witness :
  outcome (_make_api_call Samples.operation_model
             Samples._convert_to_request_dict Samples.before_call_handlers
             Samples.make_request Samples.storage_client "GetObject"
             [("Bucket", VStr "photos")])
    = ret [("Contents", VStr "a.png")]
  /\ exists om rd http,
       Samples.make_request om
         (Samples.before_call_handlers
            (before_call_name Samples.storage_client "GetObject") rd)
       = ret (http, [("Contents", VStr "a.png")])
       /\ (status_code http < 300)%Z.
Proof.
  split; [reflexivity|].
  destruct (api_call_returns_only_on_success
              Samples.operation_model Samples._convert_to_request_dict
              Samples.before_call_handlers Samples.make_request
              Samples.storage_client "GetObject"
              [("Bucket", VStr "photos")] [("Contents", VStr "a.png")]
              eq_refl)
    as (om & rd & http & _ & _ & H3 & Hs & _).
  exists om, rd, http. split; [exact H3 | exact Hs].
Defined.

Lemma api_call_fails_early_witness :
  Samples.operation_model "DropTable"
    = raise (OperationNotFoundError "DropTable")
  /\ emitted (_make_api_call Samples.operation_model
                Samples._convert_to_request_dict
                Samples.before_call_handlers Samples.make_request
                Samples.storage_client "DropTable" []) = [].
Proof.
  split; [reflexivity|].
  exact (proj1 (proj2 (api_call_fails_early
    Samples.operation_model Samples._convert_to_request_dict
    Samples.before_call_handlers Samples.make_request
    Samples.storage_client "DropTable" []
    (OperationNotFoundError "DropTable") (or_introl eq_refl)))).
Defined.

(** *** Paginators *)

Ltac pag_solve :=
  cbn [fst snd]; unfold raise, ret; repeat split; auto;
  try solve [intros; discriminate]; try solve [intros; congruence].

(** X16: [get_paginator] leaves the client as [can_paginate] left it and
    never puts the blocking page iterator back: the process-wide class
    is afterwards what it was or the asynchronous one, stays the
    asynchronous one once it is, and is the asynchronous one whenever a
    paginator is returned.  An error raised by [can_paginate] itself
    passes through unchanged and the class is not touched. *)
Theorem get_paginator_substitution
    (can_paginate : BaseClient -> string -> BaseClient * result exn bool)
    (self : BaseClient) (cls : page_iterator_cls) (op : string) :
  fst (fst (get_paginator can_paginate self cls op))
  = fst (can_paginate self op)
  /\ (snd (fst (get_paginator can_paginate self cls op)) = cls
      \/ snd (fst (get_paginator can_paginate self cls op))
         = AsyncPageIterator)
  /\ (cls = AsyncPageIterator ->
      snd (fst (get_paginator can_paginate self cls op)) = AsyncPageIterator)
  /\ (forall p,
        snd (get_paginator can_paginate self cls op) = ret p ->
        snd (fst (get_paginator can_paginate self cls op))
        = AsyncPageIterator)
  /\ (forall e,
        snd (can_paginate self op) = raise e ->
        get_paginator can_paginate self cls op
        = (fst (can_paginate self op), cls, raise e)).
Proof.
  unfold get_paginator, getattr_method.
  destruct (can_paginate self op) as [self1 [e|[|]]]; cbn [fst snd];
    [pag_solve| |pag_solve].
  destruct (dict_get op (_PY_TO_OP_NAME self1)) as [actual|]; [|pag_solve].
  destruct (in_list op (methods self1)); [|pag_solve].
  destruct (page_config self1) as [pc|]; [|pag_solve].
  destruct (dict_get actual pc); pag_solve.
Qed.

(** X17: for an operation that [can_paginate] calls pageable and that
    has an operation name, the asynchronous page iterator is installed
    before the paginator is put together: it is in place afterwards even
    when the method or the metadata turns out to be missing, and the
    error is then an AttributeError or a KeyError, not
    OperationNotPageableError. *)
Theorem get_paginator_installs_before_building
    (can_paginate : BaseClient -> string -> BaseClient * result exn bool)
    (self self1 : BaseClient) (cls : page_iterator_cls) (op actual : string) :
  can_paginate self op = (self1, ret true) ->
  dict_get op (_PY_TO_OP_NAME self1) = Some actual ->
  snd (fst (get_paginator can_paginate self cls op)) = AsyncPageIterator
  /\ (forall e,
        snd (get_paginator can_paginate self cls op) = raise e ->
        e = AttributeError op \/ e = KeyError "page_config"
        \/ e = KeyError actual).
Proof.
  intros H Hname. unfold get_paginator, getattr_method. rewrite H, Hname.
  destruct (in_list op (methods self1));
    [|cbn [fst snd]; split; [reflexivity | intros e [= <-]; auto]].
  destruct (page_config self1) as [pc|];
    [|cbn [fst snd]; split; [reflexivity | intros e [= <-]; auto]].
  destruct (dict_get actual pc);
    cbn [fst snd]; split; try reflexivity;
    [intros e; discriminate | intros e [= <-]; auto].
Qed.

(** X18: a paginator is returned only for an operation that
    [can_paginate] called pageable; it is bound to the method of that
    name and carries the metadata the cache holds for the operation name
    the method maps to. *)
Theorem get_paginator_returns_only_pageable
    (can_paginate : BaseClient -> string -> BaseClient * result exn bool)
    (self self1 : BaseClient) (cls cls1 : page_iterator_cls) (op : string)
    (p : Paginator) :
  get_paginator can_paginate self cls op = (self1, cls1, ret p) ->
  can_paginate self op = (self1, ret true)
  /\ pg_method p = op
  /\ in_list op (methods self1) = true
  /\ exists actual pc,
       dict_get op (_PY_TO_OP_NAME self1) = Some actual
       /\ page_config self1 = Some pc
       /\ dict_get actual pc = Some (pg_pagination_cfg p).
Proof.
  unfold get_paginator, getattr_method.
  destruct (can_paginate self op) as [self0 [e|[|]]]; try discriminate.
  destruct (dict_get op (_PY_TO_OP_NAME self0)) as [actual|] eqn:Hn;
    [|discriminate].
  destruct (in_list op (methods self0)) eqn:Hm; [|discriminate].
  destruct (page_config self0) as [pc|] eqn:Hp; [|discriminate].
  destruct (dict_get actual pc) as [cfg|] eqn:Hc; [|discriminate].
  intros [= <- <- <-]. simpl. repeat split; auto.
  exists actual, pc. auto.
Qed.

Lemma get_paginator_installs_before_building_witness :
  MoreSamples.always_pageable MoreSamples.client_without_method
    "list_objects"
  = (MoreSamples.client_without_method, ret true)
  /\ get_paginator MoreSamples.always_pageable
       MoreSamples.client_without_method PageIterator "list_objects"
     = (MoreSamples.client_without_method, AsyncPageIterator,
        raise (AttributeError "list_objects"))
  /\ snd (fst (get_paginator MoreSamples.always_pageable
                 MoreSamples.client_without_method PageIterator
                 "list_objects"))
     = AsyncPageIterator.
Proof.
  split; [reflexivity|]. split; [reflexivity|].
  exact (proj1 (get_paginator_installs_before_building
                  MoreSamples.always_pageable
                  MoreSamples.client_without_method
                  MoreSamples.client_without_method PageIterator
                  "list_objects" "ListObjects" eq_refl eq_refl)).
Defined.

Lemma get_paginator_returns_only_pageable_witness :
  get_paginator Samples.can_paginate Samples.storage_client PageIterator
    "list_objects"
  = (fst (Samples.can_paginate Samples.storage_client "list_objects"),
     AsyncPageIterator, ret (mkPaginator "list_objects" (VStr "Marker")))
  /\ Samples.can_paginate Samples.storage_client "list_objects"
     = (fst (Samples.can_paginate Samples.storage_client "list_objects"),
        ret true).
Proof.
  split; [reflexivity|].
  exact (proj1 (get_paginator_returns_only_pageable Samples.can_paginate
                  Samples.storage_client _ PageIterator AsyncPageIterator
                  "list_objects" (mkPaginator "list_objects" (VStr "Marker"))
                  eq_refl)).
Defined.

(** *** The client's own config *)

Section NewConfig.

Variable option_accepted : string -> value -> bool.
Variable _inject_s3_configuration :
  dict value -> option (dict value) -> option ClientConfig -> dict value.

(** X20: the config the factory constructs for the client is built from
    the keywords alone: whatever explicit config was given, its connector
    options are exactly the keep-alive default, in a new object, and the
    store is otherwise unchanged. *)
Theorem new_config_has_default_connector_args
    (h : list (dict value)) (protocol default_user_agent : string)
    (endpoint_config : EndpointConfig) (scoped_config : option (dict value))
    (client_config : option ClientConfig) (opts : dict value) :
  Config.Config_init option_accepted
    (_inject_s3_configuration
       (config_kwargs (_get_client_args protocol default_user_agent
                         endpoint_config scoped_config client_config))
       scoped_config client_config)
  = ret opts ->
  exists h' c,
    Factory.new_config option_accepted _inject_s3_configuration h protocol
      default_user_agent endpoint_config scoped_config client_config
    = (h', ret c)
    /\ Config._user_provided_options c = opts
    /\ Config.load h' (Config.connector_args c)
       = [("keepalive_timeout", VInt 12)]
    /\ (length h <= Config.connector_args c)%nat
    /\ (forall r0 d0, h !! r0 = Some d0 -> h' !! r0 = Some d0).
Proof.
  intros Hc. unfold Factory.new_config.
  destruct (ConfigFacts.AsyncConfig_init_returns option_accepted h None
              _ opts Hc eq_refl) as (h' & r' & Hi & Hb & Hl & Hf).
  exists h', (Config.mkAsyncConfig opts r'). simpl.
  repeat split; auto. lia.
Qed.

End NewConfig.

Lemma new_config_has_default_connector_args_witness :
  exists h' c,
    Factory.new_config Samples.option_accepted
      MoreSamples._inject_s3_configuration [Samples.tuned] "rest-xml"
      "Botocore/1.5" MoreSamples.resolved None (Some MoreSamples.explicit)
    = (h', ret c)
    /\ dict_get "user_agent" (Config._user_provided_options c)
       = Some (VStr "probe ci/7")
    /\ Config.load h' (Config.connector_args c)
       = [("keepalive_timeout", VInt 12)].
Proof.
  destruct (new_config_has_default_connector_args Samples.option_accepted
              MoreSamples._inject_s3_configuration [Samples.tuned]
              "rest-xml" "Botocore/1.5" MoreSamples.resolved None
              (Some MoreSamples.explicit) _ eq_refl)
    as (h' & c & Hn & Ho & Hl & _).
  exists h', c. split; [exact Hn|]. split; [|exact Hl].
  rewrite Ho. reflexivity.
Defined.

End ClientProps.
